(** * AI-Document-Assistant: ingestion-to-retrieval pipeline

    A shallow embedding of the backend of the repository
    ([backend/document_processor.py], [backend/embedding.py],
    [backend/model.py], [backend/main.py]) and the properties of it that
    the specification states.

    Conventions.
    - A Python [str] is the list of its code points ([pystr]); [len] is the
      length of that list.  A [bytes] object is a list of bytes.  Python
      integers are [Z].
    - A Python [dict] with string keys is a [gmap string _].
    - Code that can raise returns a [result]; [try ... except Exception]
      is [try_except].  Logging has no effect on results and is left out.
    - The third-party libraries the code calls are of two sorts.  The ones
      whose behaviour decides a property (the text splitter and the vector
      collection) are modelled in [Module TextSplitter] and
      [Module Chroma].  The others (MIME sniffing, PDF and image decoding,
      OCR, the sentence encoder, the hosted language model, SHA-256) are
      fields of the record [World]. *)

From Stdlib Require Import ZArith QArith List String Ascii Bool Lia Sorted.
From Stdlib.Strings Require Import Byte.
From Stdlib Require Import DecimalNat Permutation.
From stdpp Require Import base option list gmap strings.

Local Open Scope Z_scope.

(** ** Python values *)

Abbreviation pystr := (list N).
Abbreviation bytes := (list byte).

(** A string literal of the development as a Python [str]. *)
Definition py (s : string) : pystr :=
  map N_of_ascii (list_ascii_of_string s).

(** [len(s)] *)
Definition len {A} (l : list A) : Z := Z.of_nat (length l).

Fixpoint digits (u : Decimal.uint) : pystr :=
  match u with
  | Decimal.Nil => []
  | Decimal.D0 u => 48%N :: digits u
  | Decimal.D1 u => 49%N :: digits u
  | Decimal.D2 u => 50%N :: digits u
  | Decimal.D3 u => 51%N :: digits u
  | Decimal.D4 u => 52%N :: digits u
  | Decimal.D5 u => 53%N :: digits u
  | Decimal.D6 u => 54%N :: digits u
  | Decimal.D7 u => 55%N :: digits u
  | Decimal.D8 u => 56%N :: digits u
  | Decimal.D9 u => 57%N :: digits u
  end.

(** [str(i)] for the index [i] of a [range]. *)
Definition str_of_nat (i : nat) : pystr := digits (Nat.to_uint i).

(** [sep.join(parts)] *)
Fixpoint join (sep : pystr) (parts : list pystr) : pystr :=
  match parts with
  | [] => []
  | [p] => p
  | p :: rest => p ++ sep ++ join sep rest
  end.

(** Characters removed by [str.strip()]: the code points for which
    [str.isspace] holds. *)
Definition is_space (c : N) : bool :=
  ((9 <=? c) && (c <=? 13) || (28 <=? c) && (c <=? 32)
   || (c =? 133) || (c =? 160) || (c =? 5760)
   || (8192 <=? c) && (c <=? 8202)
   || (c =? 8232) || (c =? 8233) || (c =? 8239) || (c =? 8287)
   || (c =? 12288))%N.

Fixpoint lstrip (s : pystr) : pystr :=
  match s with
  | [] => []
  | c :: s' => if is_space c then lstrip s' else s
  end.

Definition rstrip (s : pystr) : pystr := rev (lstrip (rev s)).

Definition strip (s : pystr) : pystr := rstrip (lstrip s).

(** ** Exceptions and results *)

Inductive exn_class :=
| ValueError
| RuntimeError
| TypeError
| IndexError
| KeyError
| FileNotFoundError
| HTTPException (status_code : Z)
| LibraryError (name : string).

(** An exception: its class, [str(e)] and the [__cause__] set by
    [raise ... from e]. *)
#[warnings="-register-all"]
Inductive exn :=
| Exn (cls : exn_class) (msg : pystr) (cause : option exn).

Definition exn_str (e : exn) : pystr :=
  match e with Exn _ m _ => m end.

Definition exn_cls (e : exn) : exn_class :=
  match e with Exn c _ _ => c end.

Inductive result (A : Type) :=
| Ok (a : A)
| Raise (e : exn).
Arguments Ok {A} a.
Arguments Raise {A} e.

Definition bind {A B} (r : result A) (k : A -> result B) : result B :=
  match r with
  | Ok a => k a
  | Raise e => Raise e
  end.

Notation "x <- r ;; k" := (bind r (fun x => k))
  (at level 60, r at next level, right associativity).

(** [try: body  except Exception as e: handler e]; every class of [exn_class]
    derives from [Exception]. *)
Definition try_except {A} (body : result A) (handler : exn -> result A)
  : result A :=
  match body with
  | Ok a => Ok a
  | Raise e => handler e
  end.

(** [s or ""] *)
Definition or_empty (s : option pystr) : pystr :=
  match s with
  | Some (c :: s') => c :: s'
  | Some [] | None => []
  end.

(** Whether a computation returned. *)
Definition returns {A} (r : result A) : bool :=
  match r with
  | Ok _ => true
  | Raise _ => false
  end.

(** [xs[i]], raising [IndexError] out of range. *)
Definition index {A} (xs : list A) (i : nat) : result A :=
  match xs !! i with
  | Some x => Ok x
  | None => Raise (Exn IndexError (py "list index out of range") None)
  end.

(** Values stored in the dictionaries of the program. *)
Definition table_rows := list (list (pystr * pystr)).

(** The values a metadata mapping of the vector store holds.  A Python
    [float] is idealised as a rational. *)
Inductive scalar :=
| SStr (s : pystr)
| SInt (z : Z)
| SFloat (q : Q)
| SBool (b : bool).

Abbreviation metadata := (gmap string scalar).

Inductive pyvalue :=
| PNone
| PStr (s : pystr)
| PInt (z : Z)
| PFloat (q : Q)
| PStrList (l : list pystr)
| PTables (t : list table_rows)
| PMeta (m : metadata).

Abbreviation pydict := (gmap string pyvalue).

(** [type(v).__name__] *)
Definition type_name (v : pyvalue) : pystr :=
  match v with
  | PNone => py "NoneType"
  | PStr _ => py "str"
  | PInt _ => py "int"
  | PFloat _ => py "float"
  | PStrList _ => py "list"
  | PTables _ => py "list"
  | PMeta _ => py "dict"
  end.

(** ** The text splitter

    [langchain.text_splitter.RecursiveCharacterTextSplitter], the class the
    document processor instantiates.  The model follows the library's
    [split_text], [_split_text], [_split_text_with_regex], [_merge_splits]
    and [_join_docs] for literal separators ([is_separator_regex=False], as
    the processor passes it) and [length_function=len]. *)
Module TextSplitter.

Record config := {
  chunk_size : Z;
  chunk_overlap : Z;
  separators : list pystr;
  keep_separator : bool;
  strip_whitespace : bool
}.

Definition nonempty (s : pystr) : bool :=
  match s with [] => false | _ => true end.

Fixpoint is_prefix (p s : pystr) : bool :=
  match p, s with
  | [], _ => true
  | _ :: _, [] => false
  | a :: p', b :: s' => (a =? b)%N && is_prefix p' s'
  end.

(** [re.search(re.escape(sep), text)] finds a match. *)
Fixpoint occurs (sep text : pystr) : bool :=
  is_prefix sep text
  || match text with
     | [] => false
     | _ :: rest => occurs sep rest
     end.

(** The pieces of [text] between the leftmost, non-overlapping occurrences
    of the non-empty literal [sep], as [re.split] cuts them; [skip] counts
    the characters of the current occurrence still to pass over. *)
Fixpoint re_split (sep : pystr) (skip : nat) (text : pystr) : list pystr :=
  match text with
  | [] => [[]]
  | c :: rest =>
    match skip with
    | S k => re_split sep k rest
    | O =>
      if is_prefix sep text
      then [] :: re_split sep (length sep - 1) rest
      else match re_split sep 0 rest with
           | p :: ps => (c :: p) :: ps
           | [] => [[c]]
           end
    end
  end.

(** [_split_text_with_regex]: with [keep_separator] every piece but the
    first carries the separator in front of it; an empty separator gives
    [list(text)]; empty pieces are dropped. *)
Definition _split_text_with_regex (text separator : pystr) (keep : bool)
  : list pystr :=
  let splits :=
    match separator with
    | [] => map (fun c => [c]) text
    | _ :: _ =>
      let pieces := re_split separator 0 text in
      if keep
      then match pieces with
           | [] => []
           | p0 :: ps => p0 :: map (app separator) ps
           end
      else pieces
    end in
  List.filter nonempty splits.

Section Splitter.
Variable cfg : config.

Definition _join_docs (docs : list pystr) (separator : pystr)
  : option pystr :=
  let text := join separator docs in
  let text := if strip_whitespace cfg then strip text else text in
  match text with
  | [] => None
  | _ :: _ => Some text
  end.

(** The inner [while] of [_merge_splits]: drop documents from the front of
    [current_doc] until what is left fits the overlap. *)
Fixpoint pop_front (separator_len _len : Z) (current_doc : list pystr)
    (total : Z) : result (list pystr * Z) :=
  if (total >? chunk_overlap cfg)
     || ((total + _len
            + (if len current_doc >? 0 then separator_len else 0)
          >? chunk_size cfg)
         && (total >? 0))
  then match current_doc with
       | [] => Raise (Exn IndexError (py "list index out of range") None)
       | d0 :: rest =>
         pop_front separator_len _len rest
           (total - (len d0
                     + (if len current_doc >? 1 then separator_len else 0)))
       end
  else Ok (current_doc, total).

(** The [for d in splits] loop of [_merge_splits] and its epilogue. *)
Fixpoint merge_loop (separator : pystr) (splits docs current_doc : list pystr)
    (total : Z) : result (list pystr) :=
  let separator_len := len separator in
  match splits with
  | [] =>
    Ok (match _join_docs current_doc separator with
        | Some doc => docs ++ [doc]
        | None => docs
        end)
  | d :: rest =>
    let _len := len d in
    st <- (if (total + _len
                 + (if len current_doc >? 0 then separator_len else 0)
               >? chunk_size cfg)
              && (len current_doc >? 0)
           then
             let docs' :=
               match _join_docs current_doc separator with
               | Some doc => docs ++ [doc]
               | None => docs
               end in
             popped <- pop_front separator_len _len current_doc total ;;
             Ok (docs', popped)
           else Ok (docs, (current_doc, total))) ;;
    let current_doc' := st.2.1 ++ [d] in
    merge_loop separator rest st.1 current_doc'
      (st.2.2 + _len + (if len current_doc' >? 1 then separator_len else 0))
  end.

Definition _merge_splits (splits : list pystr) (separator : pystr)
  : result (list pystr) :=
  merge_loop separator splits [] [] 0.

(** [if _good_splits: final_chunks.extend(self._merge_splits(_good_splits,
    _separator))] *)
Definition merge_good_splits (_separator : pystr)
    (final_chunks _good_splits : list pystr) : result (list pystr) :=
  match _good_splits with
  | [] => Ok final_chunks
  | _ :: _ =>
    merged <- _merge_splits _good_splits _separator ;;
    Ok (final_chunks ++ merged)
  end.

(** The [for s in splits] loop of [_split_text] and its epilogue;
    [recurse] is [self._split_text(_, new_separators)], absent when
    [new_separators] is empty. *)
Fixpoint split_loop (_separator : pystr)
    (recurse : option (pystr -> result (list pystr)))
    (splits final_chunks _good_splits : list pystr) : result (list pystr) :=
  match splits with
  | [] => merge_good_splits _separator final_chunks _good_splits
  | s :: rest =>
    if len s <? chunk_size cfg
    then split_loop _separator recurse rest final_chunks (_good_splits ++ [s])
    else
      final_chunks <-
        merge_good_splits _separator final_chunks _good_splits ;;
      final_chunks <-
        match recurse with
        | None => Ok (final_chunks ++ [s])
        | Some split_more =>
          other_info <- split_more s ;; Ok (final_chunks ++ other_info)
        end ;;
      split_loop _separator recurse rest final_chunks []
  end.

Definition split_with (text separator : pystr)
    (recurse : option (pystr -> result (list pystr))) : result (list pystr) :=
  let splits := _split_text_with_regex text separator (keep_separator cfg) in
  let _separator := if keep_separator cfg then [] else separator in
  split_loop _separator recurse splits [] [].

(** [_split_text(text, separators)].  The library scans [separators] for
    the first one that is empty or occurs in [text]; the separators after
    it are [new_separators]; if none is found the last one is used with no
    [new_separators].  Scanning from the head of the list, a separator
    that is neither empty nor found is skipped, which is the same search
    on the tail unless the tail is empty. *)
Fixpoint _split_text (separators : list pystr) (text : pystr)
  : result (list pystr) :=
  match separators with
  | [] => Raise (Exn IndexError (py "list index out of range") None)
  | _s :: rest =>
    if negb (nonempty _s) then split_with text _s None
    else if occurs _s text
    then split_with text _s
           (match rest with
            | [] => None
            | _ :: _ => Some (_split_text rest)
            end)
    else match rest with
         | [] => split_with text _s None
         | _ :: _ => _split_text rest text
         end
  end.

Definition split_text (text : pystr) : result (list pystr) :=
  _split_text (separators cfg) text.

End Splitter.

(** The separators of [RecursiveCharacterTextSplitter] when none are
    given: blank line, newline, space, empty string. *)
Definition default_separators : list pystr :=
  [[10%N; 10%N]; [10%N]; [32%N]; []].

End TextSplitter.

(** ** The outside world

    What the backend obtains from third-party libraries, the operating
    system and its environment.  A file is its bytes; a library call on a
    file is a function of those bytes that may raise. *)

(** What [PIL.Image.open] exposes of an image. *)
Record image := {
  image_format : pyvalue;
  image_mode : pyvalue;
  image_pixels : bytes
}.

(** A [pandas.DataFrame] as [tabula] returns it: [table.empty] and
    [table.to_dict('records')]. *)
Record dataframe := {
  df_empty : bool;
  df_records : table_rows
}.

Record World := {
  (** [os.getenv('DOCUMENT_STORAGE_PATH', 'data/documents')] in main.py *)
  document_storage_path : pystr;
  (** [open(path, 'wb')] fails at these paths *)
  write_error : pystr -> option exn;
  (** [magic.Magic(mime=True).from_file] on the contents *)
  magic_mime : bytes -> result pystr;
  (** [PyPDF2.PdfReader]: the text of each page *)
  pdf_pages : bytes -> result (list pystr);
  (** [tabula.read_pdf(path, pages='all', multiple_tables=True)] *)
  tabula_read_pdf : bytes -> result (list dataframe);
  (** [PIL.Image.open] *)
  image_open : bytes -> result image;
  (** [pytesseract.image_to_string]; [None] stands for a result that is
      not a string *)
  image_to_string : image -> result (option pystr);
  (** reading a file opened with [encoding='utf-8'] *)
  decode_utf8 : bytes -> result pystr;
  (** [hashlib.sha256(content).hexdigest()] *)
  sha256_hexdigest : bytes -> pystr;
  (** [SentenceTransformer]: the vector of one sentence, its dimension,
      and the batches on which [encode] raises *)
  embedding_dimension : nat;
  sentence_embedding : pystr -> list Q;
  sentence_embedding_length :
    forall s, length (sentence_embedding s) = embedding_dimension;
  encode_error : list pystr -> option exn;
  (** the distance of the collection's space, ["hnsw:space": "cosine"] *)
  cosine_distance : list Q -> list Q -> Q;
  (** [(prompt | llm | StrOutputParser()).invoke] on the context text and
      the question *)
  chain_invoke : pystr -> pystr -> result pystr
}.

(** The file system: path to contents. *)
Abbreviation filesystem := (gmap pystr bytes).

(** [open(path)] for reading. *)
Definition open_read (fs : filesystem) (path : pystr) : result bytes :=
  match fs !! path with
  | Some content => Ok content
  | None =>
    Raise (Exn FileNotFoundError (py "No such file or directory") None)
  end.

(** [with open(path, 'wb') as buffer: buffer.write(content)] *)
Definition write_file (w : World) (fs : filesystem) (path : pystr)
    (content : bytes) : result filesystem :=
  match write_error w path with
  | Some e => Raise e
  | None => Ok (<[path := content]> fs)
  end.

(** [if os.path.exists(path): os.remove(path)] *)
Definition remove_if_exists (fs : filesystem) (path : pystr) : filesystem :=
  delete path fs.

Definition slash : N := 47%N.

(** [os.path.basename]: what follows the last ['/']. *)
Fixpoint basename (p : pystr) : pystr :=
  match p with
  | [] => []
  | c :: rest =>
    if existsb (N.eqb slash) rest then basename rest
    else if (c =? slash)%N then rest else p
  end.

(** [os.path.join(a, b)] *)
Definition path_join (a b : pystr) : pystr :=
  match b with
  | c :: _ => if (c =? slash)%N then b
              else match a with
                   | [] => b
                   | _ :: _ =>
                     if (List.last a 0 =? slash)%N then a ++ b
                     else a ++ [slash] ++ b
                   end
  | [] => match a with
          | [] => []
          | _ :: _ => if (List.last a 0 =? slash)%N then a else a ++ [slash]
          end
  end.

(** ** backend/document_processor.py *)

(** [class DocumentType(Enum)] *)
Inductive DocumentType := PDF | IMAGE | TEXT | EXCEL.

#[global] Instance DocumentType_eq_dec : EqDecision DocumentType.
Proof. solve_decision. Defined.

(** [doc_type.value] *)
Definition DocumentType_value (t : DocumentType) : pystr :=
  match t with
  | PDF => py "pdf"
  | IMAGE => py "image"
  | TEXT => py "text"
  | EXCEL => py "excel"
  end.

(** [str(doc_type)], as an f-string renders it *)
Definition DocumentType_str (t : DocumentType) : pystr :=
  match t with
  | PDF => py "DocumentType.PDF"
  | IMAGE => py "DocumentType.IMAGE"
  | TEXT => py "DocumentType.TEXT"
  | EXCEL => py "DocumentType.EXCEL"
  end.

Module AdvancedDocumentProcessor.

(** [self.text_splitter], as [__init__] builds it. *)
Definition text_splitter : TextSplitter.config :=
  {| TextSplitter.chunk_size := 1000;
     TextSplitter.chunk_overlap := 200;
     TextSplitter.separators := TextSplitter.default_separators;
     TextSplitter.keep_separator := true;
     TextSplitter.strip_whitespace := true |}.

Definition split_text : pystr -> result (list pystr) :=
  TextSplitter.split_text text_splitter.

(** [type_mapping.get(mime_type, DocumentType.TEXT)] *)
Definition type_mapping (mime_type : pystr) : DocumentType :=
  if decide (mime_type = py "application/pdf") then PDF
  else if decide (mime_type = py "image/png") then IMAGE
  else if decide (mime_type = py "image/jpeg") then IMAGE
  else if decide (mime_type = py "text/plain") then TEXT
  else if decide (mime_type =
    py "application/vnd.openxmlformats-officedocument.spreadsheetml.sheet")
  then EXCEL
  else TEXT.

Definition detect_document_type (w : World) (fs : filesystem)
    (file_path : pystr) : result DocumentType :=
  try_except
    (content <- open_read fs file_path ;;
     mime_type <- magic_mime w content ;;
     Ok (type_mapping mime_type))
    (fun e =>
       Raise (Exn ValueError (py "Failed to detect document type") (Some e))).

Definition process_pdf (w : World) (fs : filesystem)
    (file_path : pystr) : result pydict :=
  try_except
    (file <- open_read fs file_path ;;
     text_pages <- pdf_pages w file ;;
     let full_text := join [10%N] text_pages in
     chunks <- split_text full_text ;;
     processed_tables <-
       try_except
         (content <- open_read fs file_path ;;
          tables <- tabula_read_pdf w content ;;
          Ok (map df_records
                (List.filter (fun table => negb (df_empty table)) tables)))
         (fun _ => Ok []) ;;
     Ok (<["total_chunks" := PInt (len chunks)]>
         (<["page_count" := PInt (len text_pages)]>
         (<["tables" := PTables processed_tables]>
         (<["chunks" := PStrList chunks]>
         (<["text" := PStr full_text]> ∅))))))
    (fun e => Raise (Exn RuntimeError (py "PDF processing failed") (Some e))).

Definition process_image (w : World) (fs : filesystem)
    (file_path : pystr) : result pydict :=
  try_except
    (file <- open_read fs file_path ;;
     image <- image_open w file ;;
     ocr <- image_to_string w image ;;
     let text := or_empty ocr in
     chunks <- split_text text ;;
     Ok (<["total_chunks" := PInt (len chunks)]>
         (<["mode" := image_mode image]>
         (<["format" := image_format image]>
         (<["chunks" := PStrList chunks]>
         (<["text" := PStr text]> ∅))))))
    (fun e =>
       Raise (Exn RuntimeError (py "Image processing failed") (Some e))).

Definition process_text (w : World) (fs : filesystem)
    (file_path : pystr) : result pydict :=
  try_except
    (file <- open_read fs file_path ;;
     text <- decode_utf8 w file ;;
     chunks <- split_text text ;;
     Ok (<["total_chunks" := PInt (len chunks)]>
         (<["chunks" := PStrList chunks]>
         (<["text" := PStr text]> ∅))))
    (fun e => Raise (Exn RuntimeError (py "Text processing failed") (Some e))).

(** The dispatch table of [process_document]: [{...}.get(doc_type, None)]. *)
Definition processor_table (doc_type : DocumentType)
  : option (World -> filesystem -> pystr -> result pydict) :=
  match doc_type with
  | PDF => Some process_pdf
  | IMAGE => Some process_image
  | TEXT => Some process_text
  | EXCEL => None
  end.

Definition process_document (w : World) (fs : filesystem)
    (file_path : pystr) : result pydict :=
  doc_type <- detect_document_type w fs file_path ;;
  match processor_table doc_type with
  | None =>
    Raise (Exn ValueError
             (py "Unsupported document type: " ++ DocumentType_str doc_type)
             None)
  | Some processor =>
    result <- processor w fs file_path ;;
    Ok (<["file_type" := PStr (DocumentType_value doc_type)]>
        (<["filename" := PStr (basename file_path)]> result))
  end.

End AdvancedDocumentProcessor.

(** ** The vector store

    The [chromadb] collection the embedding service writes to and queries,
    as far as ids and ranking go: the records in insertion order, [add] as
    the persistent client implements it (a record whose id is already in
    the collection is not written), and [query] as the [n_results] records
    nearest to each query vector, nearest first.  The library's check of
    vector dimensions is not part of the model. *)
Module Chroma.

Record record := {
  rec_id : pystr;
  rec_embedding : list Q;
  rec_document : pystr;
  rec_metadata : metadata
}.

Abbreviation collection := (list record).

Definition ids_of (c : collection) : list pystr := map rec_id c.


Definition contains (c : collection) (id : pystr) : bool :=
  bool_decide (id ∈ ids_of c).

(** One record of an [add]: skipped when its id is taken (the library
    logs "Add of existing embedding ID" and goes on; replacing a record is
    what its [upsert] does, which the backend never calls). *)
Definition add_record (c : collection) (r : record) : collection :=
  if contains c (rec_id r) then c else c ++ [r].

Fixpoint zip_records (ids : list pystr) (embeddings : list (list Q))
    (documents : list pystr) (metadatas : list metadata) : list record :=
  match ids, embeddings, documents, metadatas with
  | i :: ids', e :: embeddings', d :: documents', m :: metadatas' =>
    {| rec_id := i; rec_embedding := e; rec_document := d;
       rec_metadata := m |}
    :: zip_records ids' embeddings' documents' metadatas'
  | _, _, _, _ => []
  end.

(** [collection.add(embeddings=, documents=, metadatas=, ids=)] *)
Definition add (c : collection) (embeddings : list (list Q))
    (documents : list pystr) (metadatas : list metadata) (ids : list pystr)
  : result collection :=
  if bool_decide (ids = [])
  then Raise (Exn ValueError (py "Expected IDs to be a non-empty list") None)
  else if negb (bool_decide (length embeddings = length ids
                             /\ length documents = length ids
                             /\ length metadatas = length ids))
  then Raise (Exn ValueError (py "Unequal lengths for fields") None)
  else if negb (bool_decide (NoDup ids))
  then Raise (Exn (LibraryError "DuplicateIDError")
                (py "Expected IDs to be unique") None)
  else Ok (foldl add_record c
             (zip_records ids embeddings documents metadatas)).

Record QueryResult := {
  ids : list (list pystr);
  documents : list (list pystr);
  distances : list (list Q);
  metadatas : list (list metadata)
}.

(** Ranking by distance: insertion of a hit in front of the first hit that
    is not nearer, so that equal distances keep insertion order. *)
Fixpoint insert_hit (x : Q * record) (hits : list (Q * record))
  : list (Q * record) :=
  match hits with
  | [] => [x]
  | y :: hits' =>
    if Qle_bool x.1 y.1 then x :: hits else y :: insert_hit x hits'
  end.

Definition rank (distance : list Q -> list Q -> Q) (q : list Q)
    (c : collection) : list (Q * record) :=
  foldr insert_hit [] (map (fun r => (distance q (rec_embedding r), r)) c).

Definition nearest (distance : list Q -> list Q -> Q) (q : list Q)
    (n : nat) (c : collection) : list (Q * record) :=
  take n (rank distance q c).

(** [collection.query(query_embeddings=, n_results=)] *)
Definition query (distance : list Q -> list Q -> Q) (c : collection)
    (query_embeddings : list (list Q)) (n_results : Z) : result QueryResult :=
  if n_results <=? 0
  then Raise (Exn ValueError
                (py "Number of requested results cannot be negative, or zero")
                None)
  else
    let hits :=
      map (fun q => nearest distance q (Z.to_nat n_results) c)
        query_embeddings in
    Ok {| ids := map (map (fun h => rec_id h.2)) hits;
          documents := map (map (fun h => rec_document h.2)) hits;
          distances := map (map fst) hits;
          metadatas := map (map (fun h => rec_metadata h.2)) hits |}.

End Chroma.

(** ** backend/embedding.py *)
Module EmbeddingService.

(** [self.model.encode(texts).tolist()] *)
Definition encode (w : World) (texts : list pystr) : result (list (list Q)) :=
  match encode_error w texts with
  | Some e => Raise e
  | None => Ok (map (sentence_embedding w) texts)
  end.

Definition create_embeddings (w : World) (texts : list pystr)
  : result (list (list Q)) :=
  try_except (encode w texts)
    (fun e =>
       Raise (Exn RuntimeError (py "Embedding creation failed") (Some e))).

(** [[f"{unique_id}_chunk_{i}" for i in range(len(texts))] if unique_id
     else [f"chunk_{i}" for i in range(len(texts))]] *)
Definition chunk_ids (unique_id : option pystr) (texts : list pystr)
  : list pystr :=
  match unique_id with
  | Some (c :: u) =>
    map (fun i => (c :: u) ++ py "_chunk_" ++ str_of_nat i)
      (seq 0 (length texts))
  | Some [] | None =>
    map (fun i => py "chunk_" ++ str_of_nat i) (seq 0 (length texts))
  end.

(** The four arguments [store_embeddings] hands to [collection.add]. *)
Record batch := {
  batch_embeddings : list (list Q);
  batch_documents : list pystr;
  batch_metadatas : list metadata;
  batch_ids : list pystr
}.

Definition prepare (w : World) (texts : list pystr)
    (embeddings : option (list (list Q))) (metadatas : option (list metadata))
    (unique_id : option pystr) : result batch :=
  embeddings <-
    match embeddings with
    | Some (e :: es) => Ok (e :: es)
    | Some [] | None => create_embeddings w texts
    end ;;
  let metadatas :=
    match metadatas with
    | Some (m :: ms) => m :: ms
    | Some [] | None => map (fun _ => ∅) texts
    end in
  let ids := chunk_ids unique_id texts in
  Ok {| batch_embeddings := embeddings;
        batch_documents := texts;
        batch_metadatas := metadatas;
        batch_ids := ids |}.

(** [store_embeddings]; the collection after the call is the result. *)
Definition store_embeddings (w : World) (collection : Chroma.collection)
    (texts : list pystr) (embeddings : option (list (list Q)))
    (metadatas : option (list metadata)) (unique_id : option pystr)
  : result Chroma.collection :=
  try_except
    (b <- prepare w texts embeddings metadatas unique_id ;;
     Chroma.add collection (batch_embeddings b) (batch_documents b)
       (batch_metadatas b) (batch_ids b))
    (fun e =>
       Raise (Exn RuntimeError (py "Embedding storage failed") (Some e))).

(** [{"text": doc, "distance": dist, "metadata": meta}] *)
Definition search_result (hit : pystr * Q * metadata) : pydict :=
  <["metadata" := PMeta hit.2]>
  (<["distance" := PFloat hit.1.2]>
  (<["text" := PStr hit.1.1]> ∅)).

(** [zip(docs, dists, metas)] *)
Fixpoint zip3 {A B C} (xs : list A) (ys : list B) (zs : list C)
  : list (A * B * C) :=
  match xs, ys, zs with
  | x :: xs', y :: ys', z :: zs' => (x, y, z) :: zip3 xs' ys' zs'
  | _, _, _ => []
  end.

Definition search_embeddings (w : World) (collection : Chroma.collection)
    (query : pystr) (top_k : Z) : result (list pydict) :=
  try_except
    (embedded <- create_embeddings w [query] ;;
     query_embedding <- index embedded 0 ;;
     results <- Chroma.query (cosine_distance w) collection
                  [query_embedding] top_k ;;
     docs <- index (Chroma.documents results) 0 ;;
     dists <- index (Chroma.distances results) 0 ;;
     metas <- index (Chroma.metadatas results) 0 ;;
     Ok (map search_result (zip3 docs dists metas)))
    (fun e =>
       Raise (Exn RuntimeError (py "Embedding search failed") (Some e))).

End EmbeddingService.

(** ** backend/model.py *)
Module LangChainQAService.

(** [ctx.get('text', '')] *)
Definition get_text (ctx : pydict) : pyvalue :=
  match ctx !! "text" with
  | Some v => v
  | None => PStr []
  end.

(** [sep.join(items)] on arbitrary values: a [TypeError] names the first
    item that is not a string. *)
Fixpoint join_values (sep : pystr) (i : nat) (items : list pyvalue)
  : result (list pystr) :=
  match items with
  | [] => Ok []
  | PStr s :: rest =>
    parts <- join_values sep (S i) rest ;; Ok (s :: parts)
  | v :: _ =>
    Raise (Exn TypeError
             (py "sequence item " ++ str_of_nat i
                ++ py ": expected str instance, " ++ type_name v
                ++ py " found") None)
  end.

Definition str_join (sep : pystr) (items : list pyvalue) : result pystr :=
  parts <- join_values sep 0 items ;; Ok (join sep parts).

(** ["\n\n".join([ctx.get('text', '') for ctx in (context or [])])] *)
Definition context_text_of (context : option (list pydict)) : result pystr :=
  str_join [10%N; 10%N]
    (map get_text (match context with
                   | Some (c :: cs) => c :: cs
                   | Some [] | None => []
                   end)).

Definition generate_answer (w : World) (query : pystr)
    (context : option (list pydict)) : result pystr :=
  try_except
    (context_text <- context_text_of context ;;
     response <- chain_invoke w context_text query ;;
     Ok response)
    (fun e => Ok (py "Error generating answer: " ++ exn_str e)).

(** The settings [__init__] gives [ChatGoogleGenerativeAI]. *)
Record llm_settings := {
  llm_model : pystr;
  google_api_key : pystr;
  temperature : Q;
  max_output_tokens : Z
}.

(** [__init__(api_key)]; [env_key] is [os.getenv('GOOGLE_API_KEY')]. *)
Definition init (api_key env_key : option pystr) : result llm_settings :=
  let api_key :=
    match api_key with
    | Some (c :: k) => Some (c :: k)
    | Some [] | None => env_key
    end in
  match api_key with
  | Some (c :: k) =>
    Ok {| llm_model := py "gemini-1.5-flash";
          google_api_key := c :: k;
          temperature := (1 # 10)%Q;
          max_output_tokens := 512 |}
  | Some [] | None =>
    Raise (Exn ValueError
             (py "Google API Key is required. Please set GOOGLE_API_KEY in the .env file.")
             None)
  end.

(** [validate_api_key]; [llm_invoke] is [self.llm.invoke], whose result may
    be [None]. *)
Definition validate_api_key {R} (llm_invoke : pystr -> result (option R))
  : result bool :=
  try_except
    (test_response <-
       llm_invoke (py "Hello, can you confirm the API is working?") ;;
     Ok (match test_response with
         | Some _ => true
         | None => false
         end))
    (fun _ => Ok false).

End LangChainQAService.

(** ** backend/main.py *)
Module Main.

(** What the server holds between requests: the files under the storage
    path and the collection of the embedding service. *)
Record State := {
  st_files : filesystem;
  st_collection : Chroma.collection
}.

(** [processed_doc.get('chunks', [])] *)
Definition get_chunks (processed_doc : pydict) : list pystr :=
  match processed_doc !! "chunks" with
  | Some (PStrList chunks) => chunks
  | _ => []
  end.

(** [processed_doc['file_type']] as a metadata value *)
Definition get_file_type (processed_doc : pydict) : result scalar :=
  match processed_doc !! "file_type" with
  | Some (PStr s) => Ok (SStr s)
  | Some (PInt z) => Ok (SInt z)
  | Some (PFloat q) => Ok (SFloat q)
  | Some _ =>
    Raise (Exn ValueError
             (py "Expected metadata value to be a str, int, float or bool")
             None)
  | None => Raise (Exn KeyError (py "'file_type'") None)
  end.

(** [{'filename': filename, 'file_type': ..., 'chunk_index': i}] *)
Definition chunk_metadata (filename : pystr) (file_type : scalar) (i : nat)
  : metadata :=
  <["chunk_index" := SInt (Z.of_nat i)]>
  (<["file_type" := file_type]>
  (<["filename" := SStr filename]> ∅)).

(** [f"{filename}_{file_hash}"] *)
Definition unique_id_of (w : World) (filename : pystr) (content : bytes)
  : pystr :=
  filename ++ py "_" ++ sha256_hexdigest w content.

(** The [try] block of [process_document_async] after the upload has been
    written to [temp_path]. *)
Definition ingest (w : World) (fs : filesystem)
    (collection : Chroma.collection) (filename : pystr) (content : bytes)
    (temp_path : pystr) : result Chroma.collection :=
  processed_doc <-
    AdvancedDocumentProcessor.process_document w fs temp_path ;;
  let chunks := get_chunks processed_doc in
  match chunks with
  | [] =>
    Raise (Exn ValueError (py "No text chunks generated from document") None)
  | _ :: _ =>
    let unique_id := unique_id_of w filename content in
    file_type <- get_file_type processed_doc ;;
    let metadatas :=
      map (chunk_metadata filename file_type) (seq 0 (length chunks)) in
    EmbeddingService.store_embeddings w collection chunks None
      (Some metadatas) (Some unique_id)
  end.

Definition processing_failed (e : exn) : exn :=
  Exn (HTTPException 500)
    (py "Document processing failed: " ++ exn_str e) None.

(** [process_document_async]: the state it leaves and how it ends. *)
Definition process_document_async (w : World) (st : State)
    (filename : pystr) (content : bytes) : State * result unit :=
  let temp_path := path_join (document_storage_path w) filename in
  match write_file w (st_files st) temp_path content with
  | Raise e =>
    ({| st_files := remove_if_exists (st_files st) temp_path;
        st_collection := st_collection st |},
     Raise (processing_failed e))
  | Ok fs =>
    match ingest w fs (st_collection st) filename content temp_path with
    | Ok collection =>
      ({| st_files := remove_if_exists fs temp_path;
          st_collection := collection |}, Ok tt)
    | Raise e =>
      ({| st_files := remove_if_exists fs temp_path;
          st_collection := st_collection st |},
       Raise (processing_failed e))
    end
  end.

(** [ask_question]: the answer and the sources. *)
Definition ask_question (w : World) (st : State) (query : pystr)
  : result (pystr * list pydict) :=
  try_except
    (context <- EmbeddingService.search_embeddings w (st_collection st)
                  query 5 ;;
     answer <- LangChainQAService.generate_answer w query (Some context) ;;
     Ok (answer, context))
    (fun e =>
       Raise (Exn (HTTPException 500)
                (py "Question answering failed: " ++ exn_str e) None)).

(** An uploaded file: [file.filename] and what [await file.read()] gives. *)
Record UploadFile := {
  upload_filename : pystr;
  upload_content : bytes
}.

(** The body [batch_upload] returns. *)
Record BatchResponse := {
  batch_message : pystr;
  batch_results : list pydict
}.

(** [batch_upload]: the response, and the calls of
    [process_document_async] handed to [background_tasks.add_task], in the
    order they were added. *)
Definition batch_upload (files : list UploadFile)
  : BatchResponse * list (pystr * bytes) :=
  ({| batch_message := py "Documents queued for processing";
      batch_results :=
        map (fun file =>
               <["status" := PStr (py "queued")]>
               (<["filename" := PStr (upload_filename file)]> ∅)) files |},
   map (fun file => (upload_filename file, upload_content file)) files).

(** The queued tasks as the framework runs them once the response is
    sent: one after the other, in order; a task that raises ends the run,
    and the tasks behind it are not started. *)
Fixpoint run_background_tasks (w : World) (st : State)
    (tasks : list (pystr * bytes)) : State * result unit :=
  match tasks with
  | [] => (st, Ok tt)
  | (filename, content) :: rest =>
    match process_document_async w st filename content with
    | (st', Ok _) => run_background_tasks w st' rest
    | (st', Raise e) => (st', Raise e)
    end
  end.

End Main.

(** ** frontend/app.py *)
Module App.

(** One entry of the chat history: [{"role": ..., "content": ...}]. *)
Record message := {
  role : pystr;
  content : pyvalue
}.

(** [st.session_state]: [messages] and [message_key] are set when the
    script starts; [temp_input] and [api_key] may be absent. *)
Record session := {
  messages : list message;
  message_key : Z;
  temp_input : option pystr;
  api_key : option pystr
}.

(** What [response.json()] parses to: an object, or a value of another
    type. *)
Inductive json_body :=
| JsonObject (fields : pydict)
| JsonOther (type_of : pystr).

(** A [requests.Response]. *)
Record response := {
  status_code : Z;
  json : result json_body
}.

(** [requests.post(f"{FASTAPI_BACKEND_URL}/ask", json={"query": ...},
    headers={"Authorization": f"Bearer {api_key}"})]: [post] takes the
    query and the key. *)
Abbreviation poster := (pystr -> pystr -> result response).

Definition assistant (content : pyvalue) : message :=
  {| role := py "assistant"; content := content |}.

Definition append_message (s : session) (m : message) : session :=
  {| messages := messages s ++ [m];
     message_key := message_key s;
     temp_input := temp_input s;
     api_key := api_key s |}.

(** [increment_message_key] *)
Definition increment_message_key (s : session) : session :=
  {| messages := messages s;
     message_key := message_key s + 1;
     temp_input := Some [];
     api_key := api_key s |}.

(** [result.get("answer", ...)] on what [response.json()] returned. *)
Definition get_answer (body : json_body) : result pyvalue :=
  match body with
  | JsonObject fields =>
    Ok (match fields !! "answer" with
        | Some answer => answer
        | None => PStr (py "I couldn't find an answer to your question.")
        end)
  | JsonOther type_of =>
    Raise (Exn (LibraryError "AttributeError")
             (py "'" ++ type_of ++ py "' object has no attribute 'get'") None)
  end.

(** The text of the assistant's message after an exception. *)
Definition error_reply (e : exn) : pyvalue :=
  if TextSplitter.occurs (py "Connection") (exn_str e)
  then PStr (py "I'm having trouble connecting to the backend service. This could happen if no documents are uploaded yet or if the service is still starting up. Please try uploading some documents first or try again in a moment.")
  else PStr (py "I encountered an error: " ++ exn_str e).

(** The [try] block of [process_message_with_api]: the content of the
    message it appends, unless it raises. *)
Definition ask_backend (post : poster) (key user_input : pystr)
  : result pyvalue :=
  response <- post user_input key ;;
  if status_code response =? 200
  then result <- json response ;;
       answer <- get_answer result ;;
       Ok answer
  else Ok (PStr (py "I encountered an error processing your request. Please try again.")).

(** The content of the message [process_message_with_api] appends. *)
Definition reply (post : poster) (s : session) (user_input : pystr)
  : pyvalue :=
  match api_key s with
  | Some key =>
    match ask_backend post key user_input with
    | Ok answer => answer
    | Raise e => error_reply e
    end
  | None =>
    PStr (py "API key not available. Please check your environment configuration.")
  end.

Definition process_message_with_api (post : poster) (s : session)
    (user_input : pystr) : session :=
  append_message s (assistant (reply post s user_input)).

(** The handler of the Send button in [main]:
    [if send_pressed and user_input and user_input.strip(): ...]. *)
Definition send (post : poster) (s : session) (send_pressed : bool)
    (user_input : pystr) : session :=
  if send_pressed && TextSplitter.nonempty user_input
     && TextSplitter.nonempty (strip user_input)
  then
    let s := append_message s
               {| role := py "user"; content := PStr user_input |} in
    let s := process_message_with_api post s user_input in
    increment_message_key s
  else s.

End App.

(** ** A small world to run the definitions in

    Contents starting with "PK" sniff as a spreadsheet, with "%" as a PDF,
    with byte 0x89 as a PNG image, anything else as plain text; a PDF has
    one page holding its bytes as text; table extraction is unavailable;
    every image is blank; every file decodes to the characters its bytes
    number; a sentence is embedded by its length; the hosted model rejects
    the credential. *)
Module Fixtures.

Definition excel_mime : pystr :=
  py "application/vnd.openxmlformats-officedocument.spreadsheetml.sheet".

Definition demo_world : World :=
  {| document_storage_path := py "data/documents";
     write_error := fun _ => None;
     magic_mime := fun content =>
       match content with
       | x50 :: x4b :: _ => Ok excel_mime
       | x25 :: _ => Ok (py "application/pdf")
       | x89 :: _ => Ok (py "image/png")
       | _ => Ok (py "text/plain")
       end;
     pdf_pages := fun content => Ok [map Byte.to_N content];
     tabula_read_pdf := fun _ =>
       Raise (Exn (LibraryError "JavaNotFoundError") (py "java") None);
     image_open := fun content =>
       Ok {| image_format := PStr (py "PNG");
             image_mode := PStr (py "RGB");
             image_pixels := content |};
     image_to_string := fun _ => Ok (Some []);
     decode_utf8 := fun content => Ok (map Byte.to_N content);
     sha256_hexdigest := fun _ => py "e3b0c442";
     embedding_dimension := 2;
     sentence_embedding := fun s => [inject_Z (len s); 1%Q];
     sentence_embedding_length := fun _ => eq_refl;
     encode_error := fun _ => None;
     cosine_distance := fun a b =>
       ((List.hd 0 a - List.hd 0 b) * (List.hd 0 a - List.hd 0 b))%Q;
     chain_invoke := fun _ _ =>
       Raise (Exn (LibraryError "GoogleAPIError")
                (py "API key not valid") None) |}.

(** The same world with a sentence encoder that raises. *)
Definition failing_encoder_world : World :=
  {| document_storage_path := document_storage_path demo_world;
     write_error := write_error demo_world;
     magic_mime := magic_mime demo_world;
     pdf_pages := pdf_pages demo_world;
     tabula_read_pdf := tabula_read_pdf demo_world;
     image_open := image_open demo_world;
     image_to_string := image_to_string demo_world;
     decode_utf8 := decode_utf8 demo_world;
     sha256_hexdigest := sha256_hexdigest demo_world;
     embedding_dimension := 2;
     sentence_embedding := sentence_embedding demo_world;
     sentence_embedding_length := sentence_embedding_length demo_world;
     encode_error := fun _ =>
       Some (Exn (LibraryError "OutOfMemoryError") (py "CUDA") None);
     cosine_distance := cosine_distance demo_world;
     chain_invoke := chain_invoke demo_world |}.

Definition png_bytes : bytes := [x89; x50; x4e; x47].

Definition demo_files : filesystem :=
  <[py "book.xlsx" := [x50; x4b; x03; x04]]>
  (<[py "blank.png" := png_bytes]>
  (<[py "notes.txt" := list_byte_of_string "first note"]>
  (<[py "paper.pdf" := list_byte_of_string "%PDF text"]> ∅))).

Definition old_record : Chroma.record :=
  {| Chroma.rec_id := py "chunk_0";
     Chroma.rec_embedding := [1%Q; 1%Q];
     Chroma.rec_document := py "old";
     Chroma.rec_metadata := <["chunk_index" := SInt 0]> ∅ |}.

Definition demo_collection : Chroma.collection := [old_record].


(** The same world with a MIME sniffer that knows no type. *)
Definition unknown_type_world : World :=
  {| document_storage_path := document_storage_path demo_world;
     write_error := write_error demo_world;
     magic_mime := fun _ => Ok (py "application/octet-stream");
     pdf_pages := pdf_pages demo_world;
     tabula_read_pdf := tabula_read_pdf demo_world;
     image_open := image_open demo_world;
     image_to_string := image_to_string demo_world;
     decode_utf8 := decode_utf8 demo_world;
     sha256_hexdigest := sha256_hexdigest demo_world;
     embedding_dimension := 2;
     sentence_embedding := sentence_embedding demo_world;
     sentence_embedding_length := sentence_embedding_length demo_world;
     encode_error := encode_error demo_world;
     cosine_distance := cosine_distance demo_world;
     chain_invoke := chain_invoke demo_world |}.

End Fixtures.

(** ** Predicates of the specification *)

(** The invariant of an extraction result. *)
Definition chunk_count_consistent (r : pydict) : Prop :=
  exists chunks,
    r !! "chunks" = Some (PStrList chunks)
    /\ r !! "total_chunks" = Some (PInt (len chunks)).

(** What [process_document] would return if the dispatch table sent the
    file to [extractor]: the extractor's result with the filename and the
    kind stamped on it. *)
Definition routed_to (extractor : World -> filesystem -> pystr -> result pydict)
    (doc_type : DocumentType) (w : World) (fs : filesystem)
    (file_path : pystr) : result pydict :=
  result <- extractor w fs file_path ;;
  Ok (<["file_type" := PStr (DocumentType_value doc_type)]>
      (<["filename" := PStr (basename file_path)]> result)).

(** The id of the [i]-th chunk as the specification words it: the
    identity, when one is supplied, in front of ["_chunk_{i}"]. *)
Definition specified_id (document_identity : option pystr) (i : nat)
  : pystr :=
  match document_identity with
  | Some identity => identity ++ py "_chunk_" ++ str_of_nat i
  | None => py "chunk_" ++ str_of_nat i
  end.

(** The id of the [i]-th chunk when the identity is a non-empty string or
    is empty or omitted. *)
Definition chunk_id (unique_id : option pystr) (i : nat) : pystr :=
  match unique_id with
  | Some (c :: u) => (c :: u) ++ py "_chunk_" ++ str_of_nat i
  | Some [] | None => py "chunk_" ++ str_of_nat i
  end.

(** The record of the [i]-th chunk of an ingestion. *)
Definition ingested_record (w : World) (filename : pystr)
    (file_type : scalar) (unique_id : option pystr) (i : nat)
    (chunk : pystr) : Chroma.record :=
  {| Chroma.rec_id := chunk_id unique_id i;
     Chroma.rec_embedding := sentence_embedding w chunk;
     Chroma.rec_document := chunk;
     Chroma.rec_metadata := Main.chunk_metadata filename file_type i |}.

(** A record is new to a collection when its id is not in it. *)
Definition is_new (c : Chroma.collection) (r : Chroma.record) : bool :=
  negb (Chroma.contains c (Chroma.rec_id r)).

(** What the splitter makes of a text that fits one chunk: the text
    without the whitespace around it, or nothing if that leaves nothing. *)
Definition stripped (text : pystr) : list pystr :=
  match strip text with
  | [] => []
  | c :: s => [c :: s]
  end.

(** A chunk fit to embed: not empty and within the size limit. *)
Definition well_sized (limit : Z) (chunk : pystr) : Prop :=
  chunk <> [] /\ len chunk <= limit.

(** A text with no whitespace at either end. *)
Definition trimmed (s : pystr) : Prop := strip s = s.

(** The identity an id is built from: an empty [unique_id] counts as an
    omitted one. *)
Definition identity_of (unique_id : option pystr) : pystr :=
  match unique_id with
  | Some identity => identity
  | None => []
  end.


Definition is_digit (c : N) : bool := ((48 <=? c) && (c <=? 57))%N.

(** A key the answer generator can use: present and not empty. *)
Definition usable_key (k : option pystr) : bool :=
  match k with
  | Some (_ :: _) => true
  | Some [] | None => false
  end.

(** The five errors [process_document] can end with. *)
Definition document_error (e : exn) : Prop :=
  (exn_cls e = ValueError
   /\ exn_str e = py "Failed to detect document type")
  \/ e = Exn ValueError (py "Unsupported document type: DocumentType.EXCEL")
           None
  \/ (exn_cls e = RuntimeError
      /\ (exn_str e = py "PDF processing failed"
          \/ exn_str e = py "Image processing failed"
          \/ exn_str e = py "Text processing failed")).

(** The tables [process_pdf] reports for what [tabula] returned. *)
Definition tables_of (extracted : result (list dataframe)) : list table_rows :=
  match extracted with
  | Ok tables =>
    map df_records (List.filter (fun table => negb (df_empty table)) tables)
  | Raise _ => []
  end.

(** A chat history made of questions that are not blank, each followed by
    the assistant's reply. *)
Inductive paired : list App.message -> Prop :=
| paired_nil : paired []
| paired_snoc (history : list App.message) (question : pystr)
    (answer : pyvalue) :
    paired history ->
    strip question <> [] ->
    paired (history
            ++ [{| App.role := py "user"; App.content := PStr question |};
                App.assistant answer]).

(** A name with no ['/'] in it. *)
Definition plain_name (name : pystr) : Prop :=
  existsb (N.eqb slash) name = false.

(** * Properties *)

(** ** Results and strings *)

Lemma bind_Ok {A B} (r : result A) (k : A -> result B) (b : B) :
  bind r k = Ok b -> exists a, r = Ok a /\ k a = Ok b.
Proof. destruct r as [a|e]; simpl; [eauto | discriminate]. Qed.

Lemma try_except_raise_Ok {A} (body : result A) (h : exn -> exn) (a : A) :
  try_except body (fun e => Raise (h e)) = Ok a -> body = Ok a.
Proof. destruct body; simpl; congruence. Qed.

Ltac invert_ok :=
  repeat match goal with
  | H : try_except _ (fun e => Raise _) = Ok _ |- _ =>
    apply try_except_raise_Ok in H
  | H : bind _ _ = Ok _ |- _ =>
    let x := fresh "x" in
    let Hx := fresh "Hx" in
    apply bind_Ok in H; destruct H as (x & Hx & H)
  | H : Ok _ = Ok _ |- _ => injection H as H; try subst
  end.

(** ** Document processing *)

Import AdvancedDocumentProcessor.

Lemma extractor_result_consistent (w : World) (fs : filesystem)
    (file_path : pystr) (doc_type : DocumentType)
    (extractor : World -> filesystem -> pystr -> result pydict) (r : pydict) :
  processor_table doc_type = Some extractor ->
  extractor w fs file_path = Ok r ->
  chunk_count_consistent r.
Proof.
  intros Hp H.
  destruct doc_type; simpl in Hp; inversion Hp; subst; clear Hp;
    unfold process_pdf, process_image, process_text in H;
    invert_ok; eexists; split; reflexivity.
Qed.

(** C6: every result an extractor (PDF, image or text) returns has
    [total_chunks == len(chunks)]. *)
Theorem extraction_total_chunks (w : World) (fs : filesystem)
    (file_path : pystr) (r : pydict) :
  process_pdf w fs file_path = Ok r
  \/ process_image w fs file_path = Ok r
  \/ process_text w fs file_path = Ok r ->
  chunk_count_consistent r.
Proof.
  intros [H | [H | H]].
  - exact (extractor_result_consistent w fs file_path PDF _ r eq_refl H).
  - exact (extractor_result_consistent w fs file_path IMAGE _ r eq_refl H).
  - exact (extractor_result_consistent w fs file_path TEXT _ r eq_refl H).
Qed.

Lemma extraction_total_chunks_witness :
  chunk_count_consistent
    (<["total_chunks" := PInt 1]>
     (<["chunks" := PStrList [py "first note"]]>
     (<["text" := PStr (py "first note")]> ∅))).
Proof.
  apply (extraction_total_chunks Fixtures.demo_world Fixtures.demo_files
           (py "notes.txt")).
  right; right. vm_compute. reflexivity.
Defined.

(** Stamping the result in [process_document] keeps the invariant. *)
Lemma process_document_total_chunks (w : World) (fs : filesystem)
    (file_path : pystr) (r : pydict) :
  process_document w fs file_path = Ok r -> chunk_count_consistent r.
Proof.
  unfold process_document. intros H. invert_ok.
  destruct (processor_table x) as [processor|] eqn:Hp; [|discriminate].
  invert_ok.
  assert (chunk_count_consistent x0) as (chunks & Hc & Ht)
    by exact (extractor_result_consistent w fs file_path x _ x0 Hp Hx0).
  exists chunks. split.
  - rewrite !lookup_insert_ne by discriminate. exact Hc.
  - rewrite !lookup_insert_ne by discriminate. exact Ht.
Qed.

(** With the other kinds the dispatch table does send the file to the
    extractor of its kind. *)
Lemma process_document_routes (w : World) (fs : filesystem)
    (file_path : pystr) (doc_type : DocumentType)
    (extractor : World -> filesystem -> pystr -> result pydict) :
  detect_document_type w fs file_path = Ok doc_type ->
  processor_table doc_type = Some extractor ->
  process_document w fs file_path
  = routed_to extractor doc_type w fs file_path.
Proof.
  intros Hd Hp. unfold process_document, routed_to.
  rewrite Hd. simpl. rewrite Hp. reflexivity.
Qed.

(** C2, as the code has it: a file detected as a spreadsheet has no entry
    in the dispatch table, so [process_document] raises [ValueError]
    ("Unsupported document type") and calls no extractor. *)
Theorem process_document_excel_unsupported (w : World) (fs : filesystem)
    (file_path : pystr) :
  detect_document_type w fs file_path = Ok EXCEL ->
  process_document w fs file_path
  = Raise (Exn ValueError
             (py "Unsupported document type: DocumentType.EXCEL") None).
Proof.
  intros Hd. unfold process_document. rewrite Hd. reflexivity.
Qed.

Lemma process_document_excel_unsupported_witness :
  detect_document_type Fixtures.demo_world Fixtures.demo_files
    (py "book.xlsx") = Ok EXCEL
  /\ process_document Fixtures.demo_world Fixtures.demo_files (py "book.xlsx")
     = Raise (Exn ValueError
                (py "Unsupported document type: DocumentType.EXCEL") None).
Proof.
  split.
  - vm_compute. reflexivity.
  - apply process_document_excel_unsupported. vm_compute. reflexivity.
Defined.

(** C2, as the specification states it, fails: on a spreadsheet that the
    text extractor would read, [process_document] does not take the text
    route; it raises. *)
Lemma excel_is_not_routed_to_text :
  detect_document_type Fixtures.demo_world Fixtures.demo_files
    (py "book.xlsx") = Ok EXCEL
  /\ returns (routed_to process_text EXCEL Fixtures.demo_world
                Fixtures.demo_files (py "book.xlsx")) = true
  /\ returns (process_document Fixtures.demo_world Fixtures.demo_files
                (py "book.xlsx")) = false
  /\ process_document Fixtures.demo_world Fixtures.demo_files (py "book.xlsx")
     <> routed_to process_text EXCEL Fixtures.demo_world Fixtures.demo_files
          (py "book.xlsx").
Proof.
  assert (Htext : returns (routed_to process_text EXCEL Fixtures.demo_world
                             Fixtures.demo_files (py "book.xlsx")) = true)
    by (vm_compute; reflexivity).
  assert (Hdoc : returns (process_document Fixtures.demo_world
                            Fixtures.demo_files (py "book.xlsx")) = false)
    by (vm_compute; reflexivity).
  split; [vm_compute; reflexivity|].
  split; [exact Htext|]. split; [exact Hdoc|].
  intros Heq. rewrite Heq, Htext in Hdoc. discriminate.
Qed.

(** C9: when the OCR step yields no text, [process_image] returns a result
    whose text is empty, whose chunk list is empty and whose chunk count is
    zero; it does not raise. *)
Theorem process_image_blank (w : World) (fs : filesystem)
    (file_path : pystr) (file : bytes) (img : image) (ocr : option pystr) :
  fs !! file_path = Some file ->
  image_open w file = Ok img ->
  image_to_string w img = Ok ocr ->
  or_empty ocr = [] ->
  exists r,
    process_image w fs file_path = Ok r
    /\ r !! "text" = Some (PStr [])
    /\ r !! "chunks" = Some (PStrList [])
    /\ r !! "total_chunks" = Some (PInt 0).
Proof.
  intros Hf Hi Ho He. unfold process_image, open_read.
  rewrite Hf. simpl. rewrite Hi. simpl. rewrite Ho. simpl. rewrite He.
  eexists. split; [reflexivity|]. repeat split.
Qed.

Lemma process_image_blank_witness :
  exists r,
    process_image Fixtures.demo_world Fixtures.demo_files (py "blank.png")
    = Ok r
    /\ r !! "text" = Some (PStr [])
    /\ r !! "chunks" = Some (PStrList [])
    /\ r !! "total_chunks" = Some (PInt 0).
Proof.
  apply (process_image_blank Fixtures.demo_world Fixtures.demo_files
           (py "blank.png") Fixtures.png_bytes
           {| image_format := PStr (py "PNG"); image_mode := PStr (py "RGB");
              image_pixels := Fixtures.png_bytes |} (Some [])).
  - vm_compute. reflexivity.
  - vm_compute. reflexivity.
  - vm_compute. reflexivity.
  - reflexivity.
Defined.

(** ** Answer generation *)

Import LangChainQAService.


(** C5: when the invocation of the language model raises, for any query
    and any context, [generate_answer] does not raise; it returns the
    string "Error generating answer: " followed by the error's text. *)
Theorem generate_answer_degrades (w : World) (query : pystr)
    (context : option (list pydict)) (context_text : pystr) (e : exn) :
  context_text_of context = Ok context_text ->
  chain_invoke w context_text query = Raise e ->
  generate_answer w query context
  = Ok (py "Error generating answer: " ++ exn_str e).
Proof.
  intros Hc Hi. unfold generate_answer. rewrite Hc. simpl. rewrite Hi.
  reflexivity.
Qed.

Lemma generate_answer_degrades_witness :
  generate_answer Fixtures.demo_world (py "what?")
    (Some [<["text" := PStr (py "near")]> ∅; <["text" := PStr (py "mid")]> ∅])
  = Ok (py "Error generating answer: API key not valid").
Proof.
  apply (generate_answer_degrades Fixtures.demo_world (py "what?") _
           (py "near" ++ [10%N; 10%N] ++ py "mid")
           (Exn (LibraryError "GoogleAPIError") (py "API key not valid") None)).
  - vm_compute. reflexivity.
  - reflexivity.
Defined.

(** A context that cannot be joined is reported the same way. *)
Lemma generate_answer_bad_context (w : World) (query : pystr)
    (context : option (list pydict)) (e : exn) :
  context_text_of context = Raise e ->
  generate_answer w query context
  = Ok (py "Error generating answer: " ++ exn_str e).
Proof.
  intros Hc. unfold generate_answer. rewrite Hc. reflexivity.
Qed.

(** ** Embeddings *)

Import EmbeddingService.

(** C8: [create_embeddings] returns one vector per input text, in the order
    of the texts and all of the model's dimension; if the model invocation
    raises, it raises [RuntimeError] ("Embedding creation failed") and
    returns no vectors. *)
Theorem create_embeddings_all_or_nothing (w : World) (texts : list pystr) :
  match encode_error w texts with
  | None =>
    exists vectors,
      create_embeddings w texts = Ok vectors
      /\ length vectors = length texts
      /\ (forall i t, texts !! i = Some t ->
            vectors !! i = Some (sentence_embedding w t))
      /\ Forall (fun v => length v = embedding_dimension w) vectors
  | Some e =>
    create_embeddings w texts
    = Raise (Exn RuntimeError (py "Embedding creation failed") (Some e))
  end.
Proof.
  unfold create_embeddings, encode.
  destruct (encode_error w texts) as [e|]; simpl; [reflexivity|].
  exists (map (sentence_embedding w) texts). repeat split.
  - apply length_map.
  - intros i t Ht. rewrite list_lookup_fmap, Ht. reflexivity.
  - apply Forall_forall. intros v Hv. apply list_elem_of_In in Hv.
    apply in_map_iff in Hv as (t & <- & _).
    apply sentence_embedding_length.
Qed.

(** A failure of the encoder surfaces under the label of each stage it
    passes through. *)
Example encoder_failure_labels :
  let oom := Exn (LibraryError "OutOfMemoryError") (py "CUDA") None in
  let creation :=
    Exn RuntimeError (py "Embedding creation failed") (Some oom) in
  create_embeddings Fixtures.failing_encoder_world [py "a"] = Raise creation
  /\ store_embeddings Fixtures.failing_encoder_world [] [py "a"] None None
       None
     = Raise (Exn RuntimeError (py "Embedding storage failed") (Some creation))
  /\ search_embeddings Fixtures.failing_encoder_world [] (py "a") 5
     = Raise (Exn RuntimeError (py "Embedding search failed") (Some creation)).
Proof. repeat split. Qed.


(** ** The vector store: ranking *)

Section Ranking.
Variable distance : list Q -> list Q -> Q.










End Ranking.




(** ** The vector store: writing *)

Lemma contains_spec (c : Chroma.collection) (id : pystr) :
  Chroma.contains c id = true <-> id ∈ Chroma.ids_of c.
Proof. unfold Chroma.contains. apply bool_decide_eq_true. Qed.

Lemma contains_app (c1 c2 : Chroma.collection) (id : pystr) :
  Chroma.contains (c1 ++ c2) id
  = Chroma.contains c1 id || Chroma.contains c2 id.
Proof.
  apply eq_true_iff_eq. rewrite orb_true_iff, !contains_spec.
  unfold Chroma.ids_of. rewrite map_app. apply elem_of_app.
Qed.

(** Writing a batch whose ids are distinct appends, in order, the records
    whose ids are new. *)
Lemma add_records_spec (rs : list Chroma.record) (c : Chroma.collection) :
  NoDup (Chroma.ids_of rs) ->
  foldl Chroma.add_record c rs = c ++ List.filter (is_new c) rs.
Proof.
  revert c. induction rs as [|r rs IH]; intros c Hnd; simpl.
  - symmetry. apply app_nil_r.
  - apply NoDup_cons in Hnd as [Hr Hnd]. rewrite (IH _ Hnd).
    unfold Chroma.add_record, is_new at 2.
    destruct (Chroma.contains c (Chroma.rec_id r)) eqn:Hc; simpl.
    + reflexivity.
    + rewrite <- app_assoc. simpl. do 2 f_equal.
      apply List.filter_ext_in. intros r' Hr'. unfold is_new.
      rewrite contains_app. f_equal.
      destruct (Chroma.contains [r] (Chroma.rec_id r')) eqn:Hc';
        [|apply orb_false_r].
      exfalso. apply contains_spec in Hc'. simpl in Hc'.
      apply list_elem_of_singleton in Hc'. apply Hr. rewrite <- Hc'.
      apply list_elem_of_In. apply in_map. exact Hr'.
Qed.

Lemma add_record_NoDup (c : Chroma.collection) (r : Chroma.record) :
  NoDup (Chroma.ids_of c) -> NoDup (Chroma.ids_of (Chroma.add_record c r)).
Proof.
  intros Hnd. unfold Chroma.add_record.
  destruct (Chroma.contains c (Chroma.rec_id r)) eqn:Hc; [exact Hnd|].
  unfold Chroma.ids_of. rewrite map_app. simpl.
  apply NoDup_app. repeat split.
  - exact Hnd.
  - intros id Hin Hin'. apply list_elem_of_singleton in Hin'. subst id.
    apply contains_spec in Hin. congruence.
  - apply NoDup_singleton.
Qed.

Lemma add_records_NoDup (rs : list Chroma.record) (c : Chroma.collection) :
  NoDup (Chroma.ids_of c) ->
  NoDup (Chroma.ids_of (foldl Chroma.add_record c rs)).
Proof.
  revert c. induction rs as [|r rs IH]; intros c Hnd; simpl; [exact Hnd|].
  apply IH, add_record_NoDup, Hnd.
Qed.

(** A batch all of whose ids are taken changes nothing. *)
Lemma add_records_present (rs : list Chroma.record) (c : Chroma.collection) :
  Forall (fun r => Chroma.rec_id r ∈ Chroma.ids_of c) rs ->
  foldl Chroma.add_record c rs = c.
Proof.
  induction 1 as [|r rs Hr _ IH]; simpl; [reflexivity|].
  unfold Chroma.add_record at 2.
  apply contains_spec in Hr. rewrite Hr. exact IH.
Qed.

Lemma add_record_grows (c : Chroma.collection) (r : Chroma.record) id :
  id ∈ Chroma.ids_of c -> id ∈ Chroma.ids_of (Chroma.add_record c r).
Proof.
  unfold Chroma.add_record.
  destruct (Chroma.contains c (Chroma.rec_id r)); [trivial|].
  unfold Chroma.ids_of. rewrite map_app. intros H. apply elem_of_app. auto.
Qed.

Lemma add_records_grows (rs : list Chroma.record) (c : Chroma.collection) id :
  id ∈ Chroma.ids_of c -> id ∈ Chroma.ids_of (foldl Chroma.add_record c rs).
Proof.
  revert c. induction rs as [|r rs IH]; intros c Hin; simpl; [exact Hin|].
  apply IH, add_record_grows, Hin.
Qed.

(** After a batch is written every id of it is in the collection. *)
Lemma add_records_stored (rs : list Chroma.record) (c : Chroma.collection) :
  Forall (fun r =>
            Chroma.rec_id r ∈ Chroma.ids_of (foldl Chroma.add_record c rs))
    rs.
Proof.
  revert c. induction rs as [|r rs IH]; intros c; simpl; constructor.
  - apply add_records_grows. unfold Chroma.add_record.
    destruct (Chroma.contains c (Chroma.rec_id r)) eqn:Hc.
    + apply contains_spec, Hc.
    + unfold Chroma.ids_of. rewrite map_app. apply elem_of_app. right.
      simpl. left.
  - apply IH.
Qed.



(** What a successful [add] does. *)
Lemma add_Ok (c c' : Chroma.collection) embeddings documents metadatas ids :
  Chroma.add c embeddings documents metadatas ids = Ok c' ->
  ids <> []
  /\ length embeddings = length ids
  /\ length documents = length ids
  /\ length metadatas = length ids
  /\ NoDup ids
  /\ c' = foldl Chroma.add_record c
            (Chroma.zip_records ids embeddings documents metadatas).
Proof.
  unfold Chroma.add. intros H.
  destruct (bool_decide (ids = [])) eqn:H1; [discriminate|].
  destruct (bool_decide (_ /\ _)) eqn:H2; [|discriminate].
  destruct (bool_decide (NoDup ids)) eqn:H3; [|discriminate].
  apply bool_decide_eq_false in H1. apply bool_decide_eq_true in H2, H3.
  simpl in H. injection H as <-. intuition.
Qed.

Lemma zip_records_ids ids embeddings documents metadatas :
  length embeddings = length ids ->
  length documents = length ids ->
  length metadatas = length ids ->
  Chroma.ids_of (Chroma.zip_records ids embeddings documents metadatas) = ids.
Proof.
  revert embeddings documents metadatas.
  induction ids as [|i ids IH]; intros [|e es] [|d ds] [|m ms];
    simpl; try discriminate; try reflexivity.
  intros He Hd Hm. f_equal. apply IH; congruence.
Qed.






(** ** Chunk ids and chunk order *)

Lemma chunk_ids_spec (unique_id : option pystr) (texts : list pystr) :
  chunk_ids unique_id texts = map (chunk_id unique_id) (seq 0 (length texts)).
Proof. destruct unique_id as [[|c u]|]; reflexivity. Qed.

Lemma chunk_ids_lookup (unique_id : option pystr) (texts : list pystr)
    (i : nat) :
  (i < length texts)%nat ->
  chunk_ids unique_id texts !! i = Some (chunk_id unique_id i).
Proof.
  intros Hi. rewrite chunk_ids_spec, list_lookup_fmap.
  rewrite lookup_seq_lt by exact Hi. reflexivity.
Qed.

(** Zipping the four lists of a batch built index by index gives the
    records index by index. *)
Lemma zip_records_imap (mk_id : nat -> pystr) (embed : pystr -> list Q)
    (mk_meta : nat -> metadata) (texts : list pystr) (k : nat) :
  Chroma.zip_records (map mk_id (seq k (length texts))) (map embed texts)
    texts (map mk_meta (seq k (length texts)))
  = imap (fun i t =>
            {| Chroma.rec_id := mk_id (k + i)%nat;
               Chroma.rec_embedding := embed t;
               Chroma.rec_document := t;
               Chroma.rec_metadata := mk_meta (k + i)%nat |}) texts.
Proof.
  revert k. induction texts as [|t texts IH]; intros k; simpl; [reflexivity|].
  rewrite Nat.add_0_r. f_equal. rewrite IH.
  apply imap_ext. intros i x _. simpl.
  replace (k + S i)%nat with (S (k + i)) by lia. reflexivity.
Qed.

(** Storing chunks with the metadata [process_document_async] builds
    appends, in chunk order, the records whose ids are new. *)
Lemma store_chunks_spec (w : World) (c c' : Chroma.collection)
    (chunks : list pystr) (filename : pystr) (file_type : scalar)
    (unique_id : option pystr) :
  store_embeddings w c chunks None
    (Some (map (Main.chunk_metadata filename file_type)
             (seq 0 (length chunks)))) unique_id = Ok c' ->
  c' = c ++ List.filter (is_new c)
              (imap (ingested_record w filename file_type unique_id) chunks).
Proof.
  intros H. unfold store_embeddings in H.
  apply try_except_raise_Ok in H. apply bind_Ok in H as (b & Hb & Hadd).
  apply add_Ok in Hadd as (_ & He & Hd & Hm & Hnd & ->).
  rewrite add_records_spec by (rewrite zip_records_ids; assumption).
  do 2 f_equal.
  unfold prepare, create_embeddings, encode in Hb.
  destruct (encode_error w chunks); [discriminate|]. simpl in Hb.
  injection Hb as <-. simpl. rewrite chunk_ids_spec.
  destruct chunks as [|t chunks]; [reflexivity|].
  change (Main.chunk_metadata filename file_type 0
          :: map (Main.chunk_metadata filename file_type)
               (seq 1 (length chunks)))
    with (map (Main.chunk_metadata filename file_type)
            (seq 0 (length (t :: chunks)))).
  apply (zip_records_imap (chunk_id unique_id) (sentence_embedding w)
           (Main.chunk_metadata filename file_type) (t :: chunks) 0).
Qed.

(** C7, as the code has it: when the chunks of a document are stored the
    way [process_document_async] stores them, the collection gains, in
    chunk order, the records of the chunks whose ids are new; the record
    of the [i]-th chunk has the id ["{unique_id}_chunk_{i}"] when
    [unique_id] is a non-empty string and ["chunk_{i}"] when it is empty
    or omitted, the chunk as its document and [i] as its [chunk_index]. *)
Theorem ingestion_ids_and_order (w : World) (c c' : Chroma.collection)
    (chunks : list pystr) (filename : pystr) (file_type : scalar)
    (unique_id : option pystr) :
  store_embeddings w c chunks None
    (Some (map (Main.chunk_metadata filename file_type)
             (seq 0 (length chunks)))) unique_id = Ok c' ->
  c' = c ++ List.filter (is_new c)
              (imap (ingested_record w filename file_type unique_id) chunks)
  /\ forall i chunk, chunks !! i = Some chunk ->
       let r := ingested_record w filename file_type unique_id i chunk in
       Chroma.rec_id r
       = match unique_id with
         | Some (x :: u) => (x :: u) ++ py "_chunk_" ++ str_of_nat i
         | Some [] | None => py "chunk_" ++ str_of_nat i
         end
       /\ Chroma.rec_document r = chunk
       /\ Chroma.rec_metadata r !! "chunk_index" = Some (SInt (Z.of_nat i)).
Proof.
  intros H. split.
  - exact (store_chunks_spec w c c' chunks filename file_type unique_id H).
  - intros i chunk _. repeat split.
Qed.

Lemma ingestion_ids_and_order_witness :
  let chunks := [py "first note"; py "second note"] in
  let unique_id := Some (py "notes.txt_e3b0c442") in
  let c' := List.filter (is_new [])
              (imap (ingested_record Fixtures.demo_world (py "notes.txt")
                       (SStr (py "text")) unique_id) chunks) in
  store_embeddings Fixtures.demo_world [] chunks None
    (Some (map (Main.chunk_metadata (py "notes.txt") (SStr (py "text")))
             (seq 0 (length chunks)))) unique_id = Ok c'
  /\ Chroma.ids_of c'
     = [py "notes.txt_e3b0c442_chunk_0"; py "notes.txt_e3b0c442_chunk_1"]
  /\ c' = [] ++ c'
  /\ forall i chunk, chunks !! i = Some chunk ->
       let r := ingested_record Fixtures.demo_world (py "notes.txt")
                  (SStr (py "text")) unique_id i chunk in
       Chroma.rec_id r
       = py "notes.txt_e3b0c442" ++ py "_chunk_" ++ str_of_nat i
       /\ Chroma.rec_document r = chunk
       /\ Chroma.rec_metadata r !! "chunk_index" = Some (SInt (Z.of_nat i)).
Proof.
  intros chunks unique_id c'.
  assert (Hst : store_embeddings Fixtures.demo_world [] chunks None
                  (Some (map (Main.chunk_metadata (py "notes.txt")
                                (SStr (py "text")))
                           (seq 0 (length chunks)))) unique_id = Ok c')
    by (vm_compute; reflexivity).
  split; [exact Hst|]. split; [vm_compute; reflexivity|].
  exact (ingestion_ids_and_order Fixtures.demo_world [] c' chunks
           (py "notes.txt") (SStr (py "text")) unique_id Hst).
Defined.

(** C7, as the specification states it, fails: an identity that is
    supplied but empty gives the ids of an omitted identity, not
    ["_chunk_{i}"]. *)
Lemma empty_identity_gets_no_prefix :
  store_embeddings Fixtures.demo_world [] [py "a"] None
    (Some (map (Main.chunk_metadata (py "f") (SStr (py "text"))) (seq 0 1)))
    (Some [])
  = Ok [ingested_record Fixtures.demo_world (py "f") (SStr (py "text"))
          (Some []) 0 (py "a")]
  /\ Chroma.rec_id (ingested_record Fixtures.demo_world (py "f")
                      (SStr (py "text")) (Some []) 0 (py "a"))
     = py "chunk_0"
  /\ specified_id (Some []) 0 = py "_chunk_0"
  /\ py "chunk_0" <> py "_chunk_0".
Proof.
  repeat split; try (vm_compute; reflexivity). vm_compute. discriminate.
Qed.

(** With a non-empty identity or none the ids are the specified ones. *)
Lemma chunk_id_as_specified (unique_id : option pystr) (i : nat) :
  unique_id <> Some [] -> chunk_id unique_id i = specified_id unique_id i.
Proof. destruct unique_id as [[|c u]|]; [congruence | reflexivity..]. Qed.

Import Main.

(** The identity [process_document_async] builds is never empty. *)
Lemma chunk_id_of_upload (w : World) (filename : pystr) (content : bytes)
    (i : nat) :
  chunk_id (Some (unique_id_of w filename content)) i
  = filename ++ py "_" ++ sha256_hexdigest w content ++ py "_chunk_"
      ++ str_of_nat i.
Proof.
  unfold unique_id_of. destruct filename as [|c f]; simpl.
  - reflexivity.
  - rewrite <- !app_assoc. reflexivity.
Qed.

(** A run of [process_document_async] that ends normally has stored the
    chunks of the processed document, in chunk order and skipping ids that
    are taken, under the identity made of the file name and the hash of
    the upload, and has removed the temporary file. *)
Lemma process_document_async_stores (w : World) (st st' : State)
    (filename : pystr) (content : bytes) :
  process_document_async w st filename content = (st', Ok tt) ->
  let temp_path := path_join (document_storage_path w) filename in
  exists fs processed_doc file_type,
    write_file w (st_files st) temp_path content = Ok fs
    /\ process_document w fs temp_path = Ok processed_doc
    /\ get_file_type processed_doc = Ok file_type
    /\ get_chunks processed_doc <> []
    /\ st_files st' = remove_if_exists fs temp_path
    /\ st_collection st'
       = st_collection st
         ++ List.filter (is_new (st_collection st))
              (imap (ingested_record w filename file_type
                       (Some (unique_id_of w filename content)))
                 (get_chunks processed_doc)).
Proof.
  unfold process_document_async. cbv zeta.
  set (temp_path := path_join (document_storage_path w) filename).
  intros H.
  destruct (write_file w (st_files st) temp_path content) as [fs|e] eqn:Hw;
    [|inversion H].
  destruct (ingest w fs (st_collection st) filename content temp_path)
    as [c'|e] eqn:Hi; [|inversion H].
  injection H as <-. simpl.
  unfold ingest in Hi. apply bind_Ok in Hi as (doc & Hdoc & Hi).
  destruct (get_chunks doc) as [|t chunks] eqn:Hc; [discriminate|].
  apply bind_Ok in Hi as (file_type & Hft & Hst).
  exists fs, doc, file_type. rewrite Hc.
  repeat split; try assumption; try discriminate.
  apply (store_chunks_spec w _ _ (t :: chunks) filename file_type), Hst.
Qed.

(** ** The text splitter on short texts *)

Import TextSplitter.

Lemma join_nil (parts : list pystr) : join [] parts = concat parts.
Proof.
  induction parts as [|p [|p' parts] IH]; simpl in *.
  - reflexivity.
  - symmetry. apply app_nil_r.
  - rewrite IH. reflexivity.
Qed.

Lemma is_prefix_app (p s : pystr) :
  is_prefix p s = true -> s = p ++ drop (length p) s.
Proof.
  revert s. induction p as [|a p IH]; intros [|b s]; simpl;
    try discriminate; try reflexivity.
  intros H. apply andb_true_iff in H as [Hab Hp].
  apply N.eqb_eq in Hab. subst b. f_equal. apply IH, Hp.
Qed.

Lemma is_prefix_length (p s : pystr) :
  is_prefix p s = true -> (length p <= length s)%nat.
Proof.
  revert s. induction p as [|a p IH]; intros [|b s]; simpl;
    try discriminate; try lia.
  intros H. apply andb_true_iff in H as [_ Hp]. apply IH in Hp. lia.
Qed.

(** The pieces [re_split] cuts, each but the first behind a separator,
    make up the text again. *)
Lemma re_split_pieces (sep : pystr) (text : pystr) (skip : nat) :
  sep <> [] ->
  (skip <= length text)%nat ->
  exists p0 ps,
    re_split sep skip text = p0 :: ps
    /\ p0 ++ concat (map (app sep) ps) = drop skip text.
Proof.
  intros Hsep. revert skip.
  induction text as [|c rest IH]; intros skip Hskip; simpl in *.
  - exists [], []. split; [reflexivity|]. destruct skip; reflexivity.
  - destruct skip as [|k].
    + destruct (is_prefix sep (c :: rest)) eqn:Hp.
      * destruct (IH (length sep - 1)%nat) as (p0 & ps & Hr & Hc).
        { apply is_prefix_length in Hp. simpl in Hp. lia. }
        exists [], (p0 :: ps). rewrite Hr. split; [reflexivity|].
        simpl. rewrite <- app_assoc, Hc.
        apply is_prefix_app in Hp.
        destruct sep as [|a sep']; [congruence|].
        simpl in Hp. injection Hp as -> Hrest. simpl.
        rewrite Nat.sub_0_r. f_equal. symmetry. exact Hrest.
      * destruct (IH 0%nat) as (p0 & ps & Hr & Hc); [lia|].
        exists (c :: p0), ps. rewrite Hr. split; [reflexivity|].
        simpl. f_equal. exact Hc.
    + destruct (IH k) as (p0 & ps & Hr & Hc); [lia|].
      exists p0, ps. split; assumption.
Qed.

Lemma concat_filter_nonempty (l : list pystr) :
  concat (List.filter nonempty l) = concat l.
Proof.
  induction l as [|[|c s] l IH]; simpl; [reflexivity | exact IH |].
  rewrite IH. reflexivity.
Qed.

Lemma filter_nonempty_Forall (l : list pystr) :
  Forall (fun s => s <> []) (List.filter nonempty l).
Proof.
  apply Forall_forall. intros s Hs. apply list_elem_of_In in Hs.
  apply filter_In in Hs as [_ Hs]. destruct s; [discriminate | congruence].
Qed.

(** With [keep_separator] the splits are non-empty and make up the text. *)
Lemma split_with_regex_pieces (text separator : pystr) :
  concat (_split_text_with_regex text separator true) = text
  /\ Forall (fun s => s <> []) (_split_text_with_regex text separator true).
Proof.
  unfold _split_text_with_regex. split; [|apply filter_nonempty_Forall].
  rewrite concat_filter_nonempty.
  destruct separator as [|a sep'].
  - induction text as [|c text IH]; simpl; congruence.
  - destruct (re_split_pieces (a :: sep') text 0) as (p0 & ps & -> & Hc);
      [discriminate | lia |].
    simpl in *. exact Hc.
Qed.

Lemma split_on_empty_singletons (text : pystr) :
  Forall (fun s => length s = 1%nat) (_split_text_with_regex text [] true).
Proof.
  unfold _split_text_with_regex.
  induction text as [|c text IH]; simpl; constructor; auto.
Qed.

Lemma len_app {A} (l1 l2 : list A) : len (l1 ++ l2) = len l1 + len l2.
Proof. unfold len. rewrite length_app. lia. Qed.

Lemma len_nonneg {A} (l : list A) : 0 <= len l.
Proof. unfold len. lia. Qed.

Section ShortTexts.
Variable cfg : config.
Hypothesis keep : keep_separator cfg = true.
Hypothesis strips : strip_whitespace cfg = true.
Hypothesis roomy : 1 < chunk_size cfg.

Lemma join_docs_stripped (docs current_doc : list pystr) :
  match _join_docs cfg current_doc [] with
  | Some doc => docs ++ [doc]
  | None => docs
  end = docs ++ stripped (concat current_doc).
Proof.
  unfold _join_docs, stripped. rewrite strips, join_nil.
  destruct (strip (concat current_doc)); [symmetry; apply app_nil_r|].
  reflexivity.
Qed.

(** Splits that fit one chunk together are merged into one document. *)
Lemma merge_loop_short (splits docs current_doc : list pystr) (total : Z) :
  total = len (concat current_doc) ->
  total + len (concat splits) <= chunk_size cfg ->
  merge_loop cfg [] splits docs current_doc total
  = Ok (docs ++ stripped (concat (current_doc ++ splits))).
Proof.
  revert current_doc total.
  induction splits as [|d rest IH]; intros current_doc total Ht Hfit.
  - simpl. rewrite app_nil_r. f_equal. apply join_docs_stripped.
  - simpl in Hfit. rewrite len_app in Hfit.
    pose proof (len_nonneg (concat rest)) as Hrest.
    assert (Hz : forall b : bool, (if b then len (@nil N) else 0) = 0)
      by (intros []; reflexivity).
    simpl. rewrite !Hz.
    destruct (total + len d + 0 >? chunk_size cfg) eqn:Hno;
      [apply Z.gtb_lt in Hno; lia|].
    simpl. rewrite IH.
    + rewrite <- app_assoc. reflexivity.
    + rewrite Hz, concat_app, len_app. simpl. rewrite app_nil_r. lia.
    + rewrite Hz. lia.
Qed.

Lemma merge_splits_short (splits : list pystr) :
  len (concat splits) <= chunk_size cfg ->
  _merge_splits cfg splits [] = Ok (stripped (concat splits)).
Proof.
  intros Hfit. unfold _merge_splits.
  rewrite (merge_loop_short splits [] [] 0); [reflexivity | reflexivity|].
  lia.
Qed.

(** As long as every split is shorter than a chunk, the loop of
    [_split_text] only collects them. *)
Lemma split_loop_all_short recurse (splits final_chunks good : list pystr) :
  Forall (fun s => len s < chunk_size cfg) splits ->
  split_loop cfg [] recurse splits final_chunks good
  = merge_good_splits cfg [] final_chunks (good ++ splits).
Proof.
  intros Hall. revert good.
  induction Hall as [|s splits Hs Hall IH]; intros good.
  - rewrite app_nil_r. reflexivity.
  - simpl. destruct (len s <? chunk_size cfg) eqn:Hlt;
      [|apply Z.ltb_ge in Hlt; lia].
    rewrite IH, <- app_assoc. reflexivity.
Qed.

(** Non-empty splits that make up a text no longer than a chunk are all
    shorter than a chunk, unless the text is the only split. *)
Lemma short_or_single (splits : list pystr) :
  Forall (fun s => s <> []) splits ->
  len (concat splits) <= chunk_size cfg ->
  Forall (fun s => len s < chunk_size cfg) splits
  \/ splits = [concat splits] /\ len (concat splits) = chunk_size cfg.
Proof.
  intros Hne Hfit.
  destruct (decide (Forall (fun s => len s < chunk_size cfg) splits))
    as [Hall|Hex]; [left; exact Hall | right].
  apply not_Forall_Exists in Hex; [|intros s; apply Z.lt_dec].
  apply Exists_exists in Hex as (s & Hin & Hlong).
  apply list_elem_of_In, in_split in Hin as (l1 & l2 & ->).
  rewrite concat_app in Hfit. simpl in Hfit. rewrite !len_app in Hfit.
  pose proof (len_nonneg (concat l1)). pose proof (len_nonneg (concat l2)).
  assert (l1 = []) as ->.
  { destruct l1 as [|p l1]; [reflexivity|].
    apply Forall_app in Hne as [Hne _]. apply Forall_cons in Hne as [Hp _].
    destruct p; [congruence|]. simpl in *. unfold len in *. simpl in *.
    rewrite length_app in *. lia. }
  assert (l2 = []) as ->.
  { destruct l2 as [|p l2]; [reflexivity|].
    apply Forall_app in Hne as [_ Hne]. apply Forall_cons in Hne as [_ Hne].
    apply Forall_cons in Hne as [Hp _].
    destruct p; [congruence|]. simpl in *. unfold len in *. simpl in *.
    rewrite length_app in *. lia. }
  simpl in *. rewrite app_nil_r in *. split; [reflexivity|].
  unfold len in *. simpl in *. lia.
Qed.

End ShortTexts.

Section ShortTextsSplit.
Variable cfg : config.
Hypothesis keep : keep_separator cfg = true.
Hypothesis strips : strip_whitespace cfg = true.
Hypothesis roomy : 1 < chunk_size cfg.

(** One pass of [_split_text] over a text that fits one chunk, when the
    separator is empty or the recursion on the remaining separators is
    already known to return the stripped text. *)
Lemma split_with_short (text separator : pystr)
    (recurse : option (pystr -> result (list pystr))) :
  len text <= chunk_size cfg ->
  separator = []
  \/ (exists split_more,
        recurse = Some split_more /\ split_more text = Ok (stripped text)) ->
  split_with cfg text separator recurse = Ok (stripped text).
Proof.
  intros Hfit Hrec. unfold split_with. rewrite keep.
  destruct (split_with_regex_pieces text separator) as [Hcat Hne].
  set (splits := _split_text_with_regex text separator true) in *.
  destruct (short_or_single cfg splits Hne) as [Hall | [Hone Hfull]].
  - rewrite Hcat. exact Hfit.
  - rewrite (split_loop_all_short cfg recurse splits [] [] Hall).
    rewrite app_nil_l. unfold merge_good_splits.
    rewrite (merge_splits_short cfg strips) by (rewrite Hcat; exact Hfit).
    rewrite Hcat. clearbody splits.
    destruct splits as [|s splits']; [|reflexivity].
    simpl in Hcat. subst text. reflexivity.
  - rewrite Hcat in Hone, Hfull. destruct Hrec as [-> | (f & -> & Hf)].
    + pose proof (split_on_empty_singletons text) as Hsingle.
      fold splits in Hsingle. rewrite Hone in Hsingle.
      apply Forall_cons in Hsingle as [H1 _]. unfold len in Hfull. lia.
    + rewrite Hone. simpl.
      destruct (len text <? chunk_size cfg) eqn:Hlt;
        [apply Z.ltb_lt in Hlt; lia|].
      simpl. rewrite Hf. reflexivity.
Qed.

(** With the empty string among the separators, a text that fits one
    chunk comes back as one stripped chunk, or as none if it is blank. *)
Lemma _split_text_short (separators : list pystr) (text : pystr) :
  In [] separators ->
  len text <= chunk_size cfg ->
  _split_text cfg separators text = Ok (stripped text).
Proof.
  intros Hin Hfit. induction separators as [|_s rest IH]; [destruct Hin|].
  destruct _s as [|a s].
  - simpl. apply split_with_short; [exact Hfit | left; reflexivity].
  - destruct Hin as [Hin | Hin]; [discriminate|].
    specialize (IH Hin). destruct rest as [|s' rest']; [destruct Hin|].
    cbn [_split_text nonempty negb].
    destruct (occurs (a :: s) text).
    + apply split_with_short; [exact Hfit | right].
      eexists. split; [reflexivity | exact IH].
    + exact IH.
Qed.

End ShortTextsSplit.

(** Past one chunk the splitter cuts with overlap: 2500 characters with
    no separator among them come back as chunks of 1000, 1000 and 900
    characters, each starting 800 characters after the one before. *)
Example split_text_2500 :
  AdvancedDocumentProcessor.split_text (repeat 97%N 2500)
  = Ok [repeat 97%N 1000; repeat 97%N 1000; repeat 97%N 900].
Proof. vm_compute. reflexivity. Qed.

Lemma lstrip_id (c : N) (s : pystr) :
  is_space c = false -> lstrip (c :: s) = c :: s.
Proof. intros H. simpl. rewrite H. reflexivity. Qed.

(** A text that neither starts nor ends with whitespace is its own
    stripped form. *)
Lemma strip_id (c : N) (s : pystr) :
  is_space c = false ->
  is_space (List.last (c :: s) c) = false ->
  strip (c :: s) = c :: s.
Proof.
  intros Hfirst Hlast. unfold strip, rstrip. rewrite (lstrip_id c s Hfirst).
  destruct (rev (c :: s)) as [|d t] eqn:Hrev.
  - apply (f_equal (@length N)) in Hrev. rewrite length_rev in Hrev.
    discriminate.
  - assert (Hd : List.last (c :: s) c = d).
    { rewrite <- (rev_involutive (c :: s)), Hrev. simpl.
      apply last_last. }
    rewrite Hd in Hlast. rewrite (lstrip_id d t Hlast), <- Hrev.
    apply rev_involutive.
Qed.

(** C3, as the code has it: for a text of at most [chunk_size] = 1000
    characters, [split_text] returns the text without the whitespace
    around it as the only chunk, and no chunk at all when nothing is left;
    so a non-empty text that neither starts nor ends with whitespace comes
    back as the one-element list of itself. *)
Theorem split_text_short (text : pystr) :
  len text <= 1000 ->
  AdvancedDocumentProcessor.split_text text = Ok (stripped text)
  /\ (forall c s,
        text = c :: s -> is_space c = false ->
        is_space (List.last text c) = false ->
        AdvancedDocumentProcessor.split_text text = Ok [text]).
Proof.
  intros Hfit.
  assert (Hsplit : AdvancedDocumentProcessor.split_text text
                   = Ok (stripped text)).
  { apply (_split_text_short AdvancedDocumentProcessor.text_splitter);
      try reflexivity; [|exact Hfit].
    simpl. auto. }
  split; [exact Hsplit|].
  intros c s -> Hfirst Hlast. rewrite Hsplit. unfold stripped.
  rewrite (strip_id c s Hfirst Hlast). reflexivity.
Qed.

Lemma split_text_short_witness :
  AdvancedDocumentProcessor.split_text (py " hello world ")
  = Ok [py "hello world"]
  /\ AdvancedDocumentProcessor.split_text (py "hello world")
     = Ok [py "hello world"].
Proof.
  assert (H1 : len (py " hello world ") <= 1000) by (vm_compute; discriminate).
  assert (H2 : len (py "hello world") <= 1000) by (vm_compute; discriminate).
  split.
  - exact (proj1 (split_text_short (py " hello world ") H1)).
  - apply (proj2 (split_text_short (py "hello world") H2) 104%N (py "ello world"));
      reflexivity.
Defined.

(** C3, as the specification states it, fails: the empty text and a text
    with whitespace around it are within [chunk_size], and neither comes
    back as the one-element list of itself. *)
Lemma short_text_is_not_always_one_chunk :
  len (@nil N) <= 1000
  /\ AdvancedDocumentProcessor.split_text [] = Ok []
  /\ Ok [] <> Ok [@nil N]
  /\ len (py " a ") <= 1000
  /\ AdvancedDocumentProcessor.split_text (py " a ") = Ok [py "a"]
  /\ py "a" <> py " a ".
Proof.
  repeat split; try (vm_compute; reflexivity); vm_compute; discriminate.
Qed.

(** ** Question answering end to end *)

Lemma search_result_distance (hit : pystr * Q * metadata) :
  search_result hit !! "distance" = Some (PFloat hit.1.2)
  /\ search_result hit !! "text" = Some (PStr hit.1.1).
Proof. split; reflexivity. Qed.

(** The context of retrieved chunks always joins: every search result has
    a string under ["text"]. *)
Lemma context_text_of_hits (hits : list (pystr * Q * metadata)) :
  context_text_of (Some (map search_result hits))
  = Ok (join [10%N; 10%N] (map (fun h => h.1.1) hits)).
Proof.
  unfold context_text_of, str_join.
  assert (Hj : forall i,
             join_values [10%N; 10%N] i (map get_text (map search_result hits))
             = Ok (map (fun h => h.1.1) hits)).
  { induction hits as [|h hits IH]; intros i; simpl; [reflexivity|].
    rewrite IH. reflexivity. }
  destruct hits as [|h hits]; [reflexivity|].
  change (match map search_result (h :: hits) with
          | [] => []
          | c :: cs => c :: cs
          end) with (map search_result (h :: hits)).
  rewrite Hj. reflexivity.
Qed.

(** When retrieval succeeds and the language model fails, [ask_question]
    still answers: the answer is the error text and the sources are the
    retrieved chunks. *)
Lemma ask_question_degrades (w : World) (st : State) (query : pystr)
    (hits : list (pystr * Q * metadata)) (e : exn) :
  search_embeddings w (st_collection st) query 5 = Ok (map search_result hits) ->
  chain_invoke w (join [10%N; 10%N] (map (fun h => h.1.1) hits)) query
  = Raise e ->
  ask_question w st query
  = Ok (py "Error generating answer: " ++ exn_str e, map search_result hits).
Proof.
  intros Hs Hi. unfold ask_question, generate_answer.
  rewrite Hs. simpl. rewrite context_text_of_hits. simpl. rewrite Hi.
  reflexivity.
Qed.

(** * Further properties *)

(** ** The text splitter: totality and chunk bounds *)

Lemma lstrip_length (s : pystr) : (length (lstrip s) <= length s)%nat.
Proof.
  induction s as [|c s IH]; simpl; [lia|].
  destruct (is_space c); simpl; lia.
Qed.

Lemma len_strip (s : pystr) : len (strip s) <= len s.
Proof.
  unfold len, strip, rstrip. rewrite length_rev.
  pose proof (lstrip_length (rev (lstrip s))) as H1.
  rewrite length_rev in H1. pose proof (lstrip_length s). lia.
Qed.

Lemma rstrip_snoc (s : pystr) (c : N) :
  rstrip (s ++ [c]) = if is_space c then rstrip s else s ++ [c].
Proof.
  unfold rstrip. rewrite rev_app_distr. simpl.
  destruct (is_space c); [reflexivity|].
  simpl. rewrite rev_involutive. reflexivity.
Qed.

Lemma rstrip_keeps_head (c : N) (s : pystr) :
  is_space c = false -> exists r, rstrip (c :: s) = c :: r.
Proof.
  intros Hc. induction s as [|x s IH] using rev_ind.
  - exists []. change [c] with ([] ++ [c]). rewrite rstrip_snoc, Hc.
    reflexivity.
  - rewrite app_comm_cons, rstrip_snoc.
    destruct (is_space x); [exact IH | eauto].
Qed.

Lemma rstrip_idempotent (s : pystr) : rstrip (rstrip s) = rstrip s.
Proof.
  induction s as [|x s IH] using rev_ind; [reflexivity|].
  rewrite rstrip_snoc. destruct (is_space x) eqn:Hx; [exact IH|].
  rewrite rstrip_snoc, Hx. reflexivity.
Qed.

Lemma lstrip_head (s : pystr) :
  lstrip s = [] \/ exists c r, lstrip s = c :: r /\ is_space c = false.
Proof.
  induction s as [|c s IH]; simpl; [left; reflexivity|].
  destruct (is_space c) eqn:Hc; [exact IH | right; eauto].
Qed.

(** Stripping twice is stripping once. *)
Lemma strip_trimmed (s : pystr) : trimmed (strip s).
Proof.
  unfold trimmed, strip.
  destruct (lstrip_head s) as [-> | (c & r & -> & Hc)]; [reflexivity|].
  destruct (rstrip_keeps_head c r Hc) as [r' Hr]. rewrite Hr.
  rewrite (lstrip_id c r' Hc), <- Hr. apply rstrip_idempotent.
Qed.

Section SplitterBounds.
Variable cfg : config.
Hypothesis keep : keep_separator cfg = true.
Hypothesis strips : strip_whitespace cfg = true.
Hypothesis overlap_nonneg : 0 <= chunk_overlap cfg.
Hypothesis roomy : 1 < chunk_size cfg.

Let fits (chunk : pystr) : Prop :=
  well_sized (chunk_size cfg) chunk /\ trimmed chunk.

Lemma join_docs_fits (docs current_doc : list pystr) :
  len (concat current_doc) <= chunk_size cfg ->
  exists new,
    match _join_docs cfg current_doc [] with
    | Some doc => docs ++ [doc]
    | None => docs
    end = docs ++ new
    /\ Forall fits new.
Proof.
  intros Hfit. unfold _join_docs. rewrite strips, join_nil.
  pose proof (len_strip (concat current_doc)) as Hlen.
  pose proof (strip_trimmed (concat current_doc)) as Htrim.
  destruct (strip (concat current_doc)) as [|c s] eqn:Hs.
  - exists []. split; [symmetry; apply app_nil_r | constructor].
  - exists [c :: s]. split; [reflexivity|].
    repeat constructor; [discriminate | lia | exact Htrim].
Qed.

(** The inner loop never runs out of documents: the running total is the
    length of what [current_doc] holds. *)
Lemma pop_front_total (_len : Z) (current_doc : list pystr) (total : Z) :
  total = len (concat current_doc) ->
  exists current_doc' total',
    pop_front cfg (len (@nil N)) _len current_doc total
    = Ok (current_doc', total')
    /\ total' = len (concat current_doc')
    /\ (total' + _len <= chunk_size cfg \/ total' = 0).
Proof.
  revert total. induction current_doc as [|d0 rest IH]; intros total Ht.
  - simpl in *. subst total. change (len (@nil N)) with 0.
    destruct (0 >? chunk_overlap cfg) eqn:Ho;
      [apply Z.gtb_lt in Ho; lia|].
    rewrite andb_false_r. simpl. exists [], 0. auto.
  - simpl. change (len (@nil N)) with 0.
    assert (Hz : forall b : bool, (if b then 0 else 0) = 0)
      by (intros []; reflexivity).
    rewrite !Hz.
    destruct ((total >? chunk_overlap cfg)
              || (total + _len + 0 >? chunk_size cfg) && (total >? 0))
      eqn:Hcond.
    + apply IH. subst total. simpl. rewrite len_app. lia.
    + exists (d0 :: rest), total. split; [reflexivity|]. split; [exact Ht|].
      apply orb_false_iff in Hcond as [_ Hcond].
      apply andb_false_iff in Hcond as [Hc | Hc].
      * left. destruct (Z.gtb_spec (total + _len + 0) (chunk_size cfg));
          [discriminate | lia].
      * right. pose proof (len_nonneg (concat (d0 :: rest))).
        destruct (Z.gtb_spec total 0); [discriminate | lia].
Qed.

Lemma merge_loop_fits (splits docs current_doc : list pystr) (total : Z) :
  Forall (fun d => len d <= chunk_size cfg) splits ->
  total = len (concat current_doc) ->
  total <= chunk_size cfg ->
  exists new,
    merge_loop cfg [] splits docs current_doc total = Ok (docs ++ new)
    /\ Forall fits new.
Proof.
  intros Hall. revert docs current_doc total.
  induction Hall as [|d rest Hd Hall IH]; intros docs current_doc total Ht Hfit.
  - simpl. destruct (join_docs_fits docs current_doc) as (new & -> & Hnew);
      [lia | eauto].
  - simpl.
    assert (Hz : forall b : bool, (if b then len (@nil N) else 0) = 0)
      by (intros []; reflexivity).
    rewrite !Hz.
    assert (Hstep : forall docs1 cur1 total1 new1,
               Forall fits new1 -> docs1 = docs ++ new1 ->
               total1 = len (concat cur1) ->
               total1 + len d <= chunk_size cfg ->
               exists new,
                 merge_loop cfg [] rest docs1 (cur1 ++ [d])
                   (total1 + len d
                    + (if len (cur1 ++ [d]) >? 1 then len (@nil N) else 0))
                 = Ok (docs ++ new)
                 /\ Forall fits new).
    { intros docs1 cur1 total1 new1 Hnew1 -> Ht1 Hfit1. rewrite Hz.
      destruct (IH (docs ++ new1) (cur1 ++ [d]) (total1 + len d + 0))
        as (new & Hm & Hnew).
      - rewrite concat_app, len_app. simpl. rewrite app_nil_r. lia.
      - lia.
      - exists (new1 ++ new). rewrite Hm, app_assoc. split; [reflexivity|].
        apply Forall_app; split; assumption. }
    destruct ((total + len d + 0 >? chunk_size cfg) && (len current_doc >? 0))
      eqn:Hcond.
    + destruct (join_docs_fits docs current_doc) as (new1 & Hj & Hnew1);
        [lia|]. rewrite Hj.
      destruct (pop_front_total (len d) current_doc total Ht)
        as (cur' & total' & Hp & Ht' & Hroom).
      rewrite Hp. simpl.
      apply (Hstep _ cur' total' new1 Hnew1 eq_refl Ht').
      destruct Hroom as [Hroom | ->]; lia.
    + simpl.
      apply (Hstep docs current_doc total [] (List.Forall_nil _)
               (eq_sym (app_nil_r docs)) Ht).
      apply andb_false_iff in Hcond as [Hc | Hc].
      * destruct (Z.gtb_spec (total + len d + 0) (chunk_size cfg));
          [discriminate | lia].
      * destruct current_doc as [|x cur].
        -- simpl in Ht. subst total. change (len (@nil N)) with 0. lia.
        -- exfalso. unfold len in Hc. simpl in Hc.
           destruct (Z.gtb_spec (Z.of_nat (S (length cur))) 0);
             [discriminate | lia].
Qed.

Lemma merge_good_splits_fits (final_chunks good : list pystr) :
  Forall (fun d => len d < chunk_size cfg) good ->
  exists new,
    merge_good_splits cfg [] final_chunks good = Ok (final_chunks ++ new)
    /\ Forall fits new.
Proof.
  intros Hgood. unfold merge_good_splits, _merge_splits.
  destruct good as [|g good'] eqn:Hg.
  - exists []. split; [f_equal; symmetry; apply app_nil_r | constructor].
  - rewrite <- Hg in *. clear Hg.
    destruct (merge_loop_fits good [] [] 0) as (new & Hm & Hnew).
    + eapply Forall_impl; [exact Hgood|]. simpl. intros. lia.
    + reflexivity.
    + lia.
    + rewrite Hm. simpl. eauto.
Qed.

(** The loop of [_split_text] returns, and what it adds fits, provided the
    recursion does the same for the splits that are not shorter than a
    chunk. *)
Lemma split_loop_fits (recurse : option (pystr -> result (list pystr)))
    (splits final_chunks good : list pystr) :
  match recurse with
  | Some split_more =>
    forall s, exists chunks, split_more s = Ok chunks /\ Forall fits chunks
  | None => Forall (fun s => len s < chunk_size cfg) splits
  end ->
  Forall (fun d => len d < chunk_size cfg) good ->
  exists new,
    split_loop cfg [] recurse splits final_chunks good
    = Ok (final_chunks ++ new)
    /\ Forall fits new.
Proof.
  revert final_chunks good.
  induction splits as [|s rest IH]; intros final_chunks good Hrec Hgood.
  - simpl. apply merge_good_splits_fits, Hgood.
  - simpl. destruct (len s <? chunk_size cfg) eqn:Hlt.
    + apply Z.ltb_lt in Hlt. apply IH.
      * destruct recurse; [exact Hrec|].
        apply Forall_cons in Hrec as [_ Hrec]. exact Hrec.
      * apply Forall_app. split; [exact Hgood|]. repeat constructor. exact Hlt.
    + apply Z.ltb_ge in Hlt.
      destruct recurse as [split_more|];
        [|apply Forall_cons in Hrec as [Hs _]; lia].
      destruct (merge_good_splits_fits final_chunks good Hgood)
        as (new1 & Hm & Hnew1).
      rewrite Hm. simpl.
      destruct (Hrec s) as (chunks & Hs & Hchunks). rewrite Hs. simpl.
      destruct (IH ((final_chunks ++ new1) ++ chunks) [] Hrec (List.Forall_nil _))
        as (new2 & Hl & Hnew2).
      rewrite Hl. exists (new1 ++ chunks ++ new2).
      split; [rewrite !app_assoc; reflexivity|].
      repeat (apply Forall_app; split); assumption.
Qed.

Lemma split_with_fits (text separator : pystr)
    (recurse : option (pystr -> result (list pystr))) :
  match recurse with
  | Some split_more =>
    forall s, exists chunks, split_more s = Ok chunks /\ Forall fits chunks
  | None => separator = []
  end ->
  exists chunks,
    split_with cfg text separator recurse = Ok chunks /\ Forall fits chunks.
Proof.
  intros Hrec. unfold split_with. rewrite keep.
  destruct (split_loop_fits recurse
              (_split_text_with_regex text separator true) [] [])
    as (new & Hl & Hnew).
  - destruct recurse; [exact Hrec|]. subst separator.
    eapply Forall_impl; [apply split_on_empty_singletons|].
    intros x Hx. unfold len. simpl in Hx. rewrite Hx. lia.
  - constructor.
  - rewrite Hl. eauto.
Qed.

Lemma split_text_from_fits (separators : list pystr) (text : pystr) :
  In [] separators ->
  exists chunks,
    _split_text cfg separators text = Ok chunks /\ Forall fits chunks.
Proof.
  intros Hin. revert text.
  induction separators as [|_s rest IH]; intros text; [destruct Hin|].
  destruct _s as [|a s].
  - simpl. apply split_with_fits. reflexivity.
  - destruct Hin as [Hin | Hin]; [discriminate|].
    specialize (IH Hin). destruct rest as [|s' rest']; [destruct Hin|].
    cbn [_split_text nonempty negb].
    destruct (occurs (a :: s) text); [|apply IH].
    apply (split_with_fits text (a :: s)
             (Some (_split_text cfg (s' :: rest')))).
    exact IH.
Qed.

End SplitterBounds.

(** The splitter of the document processor returns on every text. *)
Lemma split_text_returns (text : pystr) :
  exists chunks,
    AdvancedDocumentProcessor.split_text text = Ok chunks
    /\ Forall (fun chunk => well_sized 1000 chunk /\ trimmed chunk) chunks.
Proof.
  apply (split_text_from_fits AdvancedDocumentProcessor.text_splitter);
    try reflexivity; simpl; [lia | auto].
Qed.

(** ** Chunk ids never collide by accident *)

Lemma digits_inj (u u' : Decimal.uint) : digits u = digits u' -> u = u'.
Proof.
  revert u'. induction u; intros u' H; destruct u'; simpl in H;
    try discriminate; try reflexivity;
    injection H as H; f_equal; apply IHu, H.
Qed.

Lemma str_of_nat_inj (i j : nat) : str_of_nat i = str_of_nat j -> i = j.
Proof.
  unfold str_of_nat. intros H. apply Unsigned.to_uint_inj, digits_inj, H.
Qed.

Lemma digits_are_digits (u : Decimal.uint) :
  Forall (fun c => is_digit c = true) (digits u).
Proof. induction u; simpl; constructor; auto. Qed.

(** Two lists that agree after a run of digits closed by a non-digit
    agree on the run. *)
Lemma digit_run_unique (l1 l2 r1 r2 : pystr) (x y : N) :
  Forall (fun c => is_digit c = true) l1 ->
  Forall (fun c => is_digit c = true) l2 ->
  is_digit x = false -> is_digit y = false ->
  l1 ++ x :: r1 = l2 ++ y :: r2 ->
  l1 = l2 /\ x :: r1 = y :: r2.
Proof.
  intros H1. revert l2. induction H1 as [|a l1 Ha H1 IH]; intros l2 H2 Hx Hy H.
  - destruct H2 as [|b l2 Hb H2]; simpl in H; [auto|].
    injection H as -> _. congruence.
  - destruct H2 as [|b l2 Hb H2]; simpl in H.
    + injection H as -> _. congruence.
    + injection H as -> H. destruct (IH l2 H2 Hx Hy H) as [-> Hr].
      auto.
Qed.

(** An id is a prefix ending in an underscore followed by the digits of
    the index. *)
Lemma chunk_id_shape (unique_id : option pystr) (i : nat) :
  exists stem,
    chunk_id unique_id i = (stem ++ [95%N]) ++ str_of_nat i
    /\ (stem = py "chunk" /\ identity_of unique_id = []
        \/ stem = identity_of unique_id ++ py "_chunk"
           /\ identity_of unique_id <> []).
Proof.
  destruct unique_id as [[|c u]|]; simpl.
  - exists (py "chunk"). split; [reflexivity | left; split; reflexivity].
  - exists ((c :: u) ++ py "_chunk"). split.
    + change (py "_chunk_") with (py "_chunk" ++ [95%N]).
      rewrite <- !app_assoc. reflexivity.
    + right. split; [reflexivity | discriminate].
  - exists (py "chunk"). split; [reflexivity | left; split; reflexivity].
Qed.

Lemma chunk_id_inj (u u' : option pystr) (i j : nat) :
  chunk_id u i = chunk_id u' j -> i = j /\ identity_of u = identity_of u'.
Proof.
  intros H.
  destruct (chunk_id_shape u i) as (s & Hs & Hu).
  destruct (chunk_id_shape u' j) as (s' & Hs' & Hu').
  rewrite Hs, Hs' in H. apply (f_equal (@rev N)) in H.
  rewrite !rev_app_distr in H. simpl in H.
  apply digit_run_unique in H as [Hd Hstem]; try reflexivity.
  - apply (f_equal (@rev N)) in Hd. rewrite !rev_involutive in Hd.
    split; [apply str_of_nat_inj, Hd|].
    injection Hstem as Hstem. apply (f_equal (@rev N)) in Hstem.
    rewrite !rev_involutive in Hstem. subst s'.
    destruct Hu as [[-> Hi] | [-> Hi]], Hu' as [[Hs1 Hi'] | [Hs1 Hi']].
    + congruence.
    + exfalso. apply (f_equal (@length N)) in Hs1.
      rewrite length_app in Hs1. simpl in Hs1.
      destruct (identity_of u'); [congruence | simpl in Hs1; lia].
    + exfalso. apply (f_equal (@length N)) in Hs1.
      rewrite length_app in Hs1. simpl in Hs1.
      destruct (identity_of u); [congruence | simpl in Hs1; lia].
    + apply app_inv_tail in Hs1. exact Hs1.
  - apply Forall_rev, digits_are_digits.
  - apply Forall_rev, digits_are_digits.
Qed.


(** X1: two chunks are given the same id only when they have the same
    index and the same identity, an empty identity counting as an omitted
    one; within one call the ids are pairwise distinct. *)
Theorem chunk_ids_collide_only_on_same_identity (u u' : option pystr)
    (texts texts' : list pystr) (i j : nat) (id : pystr) :
  chunk_ids u texts !! i = Some id ->
  chunk_ids u' texts' !! j = Some id ->
  i = j /\ identity_of u = identity_of u'.
Proof.
  intros Hi Hj.
  assert (Hli : (i < length texts)%nat).
  { apply lookup_lt_Some in Hi. rewrite chunk_ids_spec in Hi.
    rewrite length_map, length_seq in Hi. exact Hi. }
  assert (Hlj : (j < length texts')%nat).
  { apply lookup_lt_Some in Hj. rewrite chunk_ids_spec in Hj.
    rewrite length_map, length_seq in Hj. exact Hj. }
  rewrite chunk_ids_lookup in Hi by exact Hli.
  rewrite chunk_ids_lookup in Hj by exact Hlj.
  apply chunk_id_inj. congruence.
Qed.

Lemma chunk_ids_collide_only_on_same_identity_witness :
  (0 = 0)%nat /\ identity_of (Some []) = identity_of None.
Proof.
  apply (chunk_ids_collide_only_on_same_identity (Some []) None
           [py "a"] [py "b"; py "c"] 0 0 (py "chunk_0"));
    reflexivity.
Defined.

(** ** Storing: when it succeeds and what it writes *)













(** ** Searching: when it succeeds and what it finds *)










(** ** The answer generator: construction and degraded answers *)


Lemma join_values_first_bad (sep : pystr) (pre post : list pyvalue)
    (v : pyvalue) (k : nat) :
  Forall (fun x => exists s, x = PStr s) pre ->
  (forall s, v <> PStr s) ->
  join_values sep k (pre ++ v :: post)
  = Raise (Exn TypeError
             (py "sequence item " ++ str_of_nat (k + length pre)
                ++ py ": expected str instance, " ++ type_name v
                ++ py " found") None).
Proof.
  intros Hpre Hv. revert k.
  induction Hpre as [|x pre [s ->] _ IH]; intros k; simpl.
  - rewrite Nat.add_0_r. destruct v; try reflexivity.
    exfalso. eapply Hv. reflexivity.
  - rewrite IH. simpl. rewrite Nat.add_succ_r. reflexivity.
Qed.

(** X7: a context entry whose ["text"] is not a string is reported in the
    answer, with the position of the first such entry, and the language
    model is not consulted: the answer is the same whatever the chain
    would do. *)
Theorem generate_answer_reports_bad_context (w : World) (query : pystr)
    (pre post : list pydict) (bad : pydict) :
  Forall (fun ctx => exists s, get_text ctx = PStr s) pre ->
  (forall s, get_text bad <> PStr s) ->
  generate_answer w query (Some (pre ++ bad :: post))
  = Ok (py "Error generating answer: sequence item "
          ++ str_of_nat (length pre) ++ py ": expected str instance, "
          ++ type_name (get_text bad) ++ py " found").
Proof.
  intros Hpre Hbad. unfold generate_answer, context_text_of, str_join.
  replace (match pre ++ bad :: post with
           | [] => []
           | c :: cs => c :: cs
           end) with (pre ++ bad :: post) by (destruct pre; reflexivity).
  rewrite map_app. simpl.
  rewrite (join_values_first_bad _ (map get_text pre) _ (get_text bad) 0).
  - simpl. rewrite length_map. reflexivity.
  - apply Forall_map. exact Hpre.
  - exact Hbad.
Qed.

Lemma generate_answer_reports_bad_context_witness :
  generate_answer Fixtures.demo_world (py "why?")
    (Some ([<["text" := PStr (py "fine")]> ∅]
           ++ <["text" := PInt 7]> ∅ :: []))
  = Ok (py "Error generating answer: sequence item "
          ++ str_of_nat (length [<["text" := PStr (py "fine")]> (∅ : pydict)])
          ++ py ": expected str instance, "
          ++ type_name (get_text (<["text" := PInt 7]> ∅)) ++ py " found").
Proof.
  apply (generate_answer_reports_bad_context Fixtures.demo_world (py "why?")
           [<["text" := PStr (py "fine")]> ∅] [] (<["text" := PInt 7]> ∅)).
  - repeat constructor. exists (py "fine"). reflexivity.
  - intros s. vm_compute. discriminate.
Defined.

(** X8: the service can be constructed exactly when a non-empty key is
    passed or set in the environment; a non-empty argument wins over the
    environment, an empty one falls back to it, and without any key the
    constructor raises [ValueError]. *)
Theorem init_needs_a_key (api_key env_key : option pystr) :
  ((exists settings, init api_key env_key = Ok settings)
   <-> usable_key api_key = true \/ usable_key env_key = true)
  /\ (forall settings,
        init api_key env_key = Ok settings ->
        Some (google_api_key settings)
        = (if usable_key api_key then api_key else env_key)
        /\ llm_model settings = py "gemini-1.5-flash")
  /\ (usable_key api_key = false -> usable_key env_key = false ->
      init api_key env_key
      = Raise (Exn ValueError
                 (py "Google API Key is required. Please set GOOGLE_API_KEY in the .env file.")
                 None)).
Proof.
  unfold init.
  destruct api_key as [[|c k]|], env_key as [[|c' k']|]; simpl;
    (split; [split; [intros [s Hs]; try discriminate; auto
                    | intros [H | H]; try discriminate; eauto]
            | split; [intros s Hs; try discriminate;
                      injection Hs as <-; split; reflexivity
                     | intros H1 H2; try discriminate; reflexivity]]).
Qed.

Lemma init_needs_a_key_witness :
  init (Some []) None
  = Raise (Exn ValueError
             (py "Google API Key is required. Please set GOOGLE_API_KEY in the .env file.")
             None).
Proof.
  apply (proj2 (proj2 (init_needs_a_key (Some []) None))); reflexivity.
Defined.


(** X9: [validate_api_key] never raises; it answers [True] exactly when
    the test invocation returns something other than [None], and [False]
    when it raises. *)
Theorem validate_api_key_never_raises {R}
    (llm_invoke : pystr -> result (option R)) :
  exists valid,
    validate_api_key llm_invoke = Ok valid
    /\ (valid = true
        <-> exists response,
              llm_invoke (py "Hello, can you confirm the API is working?")
              = Ok (Some response)).
Proof.
  unfold validate_api_key.
  destruct (llm_invoke _) as [[r|]|e]; simpl; eexists;
    (split; [reflexivity|]); split;
    try (intros H; discriminate); try (intros [r' H]; discriminate); eauto.
Qed.

(** ** Document processing: what comes out and what can go wrong *)

Lemma open_read_Ok (fs : filesystem) (path : pystr) (content : bytes) :
  open_read fs path = Ok content <-> fs !! path = Some content.
Proof.
  unfold open_read. destruct (fs !! path); split; intros H;
    try discriminate; congruence.
Qed.

Lemma try_except_raise_cases {A} (body : result A) (h : exn -> exn) :
  (exists a, body = Ok a /\ try_except body (fun e => Raise (h e)) = Ok a)
  \/ (exists e, body = Raise e
        /\ try_except body (fun e => Raise (h e)) = Raise (h e)).
Proof. destruct body; simpl; eauto. Qed.

(** What the three extractors have in common: the text they read, split
    by the processor's splitter. *)
Lemma extractor_text_chunks (w : World) (fs : filesystem) (file_path : pystr)
    (doc_type : DocumentType)
    (extractor : World -> filesystem -> pystr -> result pydict) (r : pydict) :
  processor_table doc_type = Some extractor ->
  extractor w fs file_path = Ok r ->
  exists text chunks,
    r !! "text" = Some (PStr text)
    /\ r !! "chunks" = Some (PStrList chunks)
    /\ r !! "total_chunks" = Some (PInt (len chunks))
    /\ r !! "filename" = None /\ r !! "file_type" = None
    /\ AdvancedDocumentProcessor.split_text text = Ok chunks.
Proof.
  intros Hp H.
  destruct doc_type; simpl in Hp; inversion Hp; subst; clear Hp;
    unfold process_pdf, process_image, process_text in H;
    apply try_except_raise_Ok in H;
    repeat match goal with
    | H : bind _ _ = Ok _ |- _ =>
      let x := fresh "x" in
      let Hx := fresh "Hx" in
      apply bind_Ok in H; destruct H as (x & Hx & H)
    end;
    injection H as <-;
    match goal with
    | Hs : AdvancedDocumentProcessor.split_text ?t = Ok ?c |- _ =>
      exists t, c; repeat split; try reflexivity; exact Hs
    end.
Qed.

(** The shape of a result of [process_document]. *)
Lemma process_document_shape (w : World) (fs : filesystem)
    (file_path : pystr) (r : pydict) :
  process_document w fs file_path = Ok r ->
  exists doc_type text chunks,
    detect_document_type w fs file_path = Ok doc_type
    /\ doc_type <> EXCEL
    /\ r !! "file_type" = Some (PStr (DocumentType_value doc_type))
    /\ r !! "filename" = Some (PStr (basename file_path))
    /\ r !! "text" = Some (PStr text)
    /\ r !! "chunks" = Some (PStrList chunks)
    /\ r !! "total_chunks" = Some (PInt (len chunks))
    /\ AdvancedDocumentProcessor.split_text text = Ok chunks
    /\ Forall (fun chunk => well_sized 1000 chunk /\ trimmed chunk) chunks.
Proof.
  unfold process_document. intros H.
  apply bind_Ok in H as (doc_type & Hd & H).
  destruct (processor_table doc_type) as [extractor|] eqn:Hp; [|discriminate].
  apply bind_Ok in H as (r0 & Hr0 & H). injection H as <-.
  destruct (extractor_text_chunks w fs file_path doc_type extractor r0 Hp Hr0)
    as (text & chunks & Ht & Hc & Hn & _ & _ & Hs).
  exists doc_type, text, chunks. repeat split.
  - exact Hd.
  - intros ->. simpl in Hp. discriminate.
  - apply lookup_insert_eq.
  - rewrite lookup_insert_ne by discriminate. apply lookup_insert_eq.
  - rewrite !lookup_insert_ne by discriminate. exact Ht.
  - rewrite !lookup_insert_ne by discriminate. exact Hc.
  - rewrite !lookup_insert_ne by discriminate. exact Hn.
  - exact Hs.
  - destruct (split_text_returns text) as (chunks' & Hs' & Hfit).
    rewrite Hs in Hs'. injection Hs' as <-. exact Hfit.
Qed.

(** X10: a result of [process_document] carries the text that was read,
    the chunks the splitter makes of that text (each of 1 to 1000
    characters, with no whitespace at its ends), their count, the base
    name of the path, and a kind that is pdf, image or text, never
    excel. *)
Theorem process_document_result (w : World) (fs : filesystem)
    (file_path : pystr) (r : pydict) :
  process_document w fs file_path = Ok r ->
  exists doc_type text chunks,
    detect_document_type w fs file_path = Ok doc_type
    /\ doc_type <> EXCEL
    /\ r !! "file_type" = Some (PStr (DocumentType_value doc_type))
    /\ r !! "filename" = Some (PStr (basename file_path))
    /\ r !! "text" = Some (PStr text)
    /\ r !! "chunks" = Some (PStrList chunks)
    /\ r !! "total_chunks" = Some (PInt (len chunks))
    /\ AdvancedDocumentProcessor.split_text text = Ok chunks
    /\ Forall (fun chunk => well_sized 1000 chunk /\ trimmed chunk) chunks.
Proof. exact (process_document_shape w fs file_path r). Qed.

Lemma process_document_result_witness :
  let r := <["file_type" := PStr (py "text")]>
           (<["filename" := PStr (py "notes.txt")]>
           (<["total_chunks" := PInt 1]>
           (<["chunks" := PStrList [py "first note"]]>
           (<["text" := PStr (py "first note")]> (∅ : pydict))))) in
  process_document Fixtures.demo_world Fixtures.demo_files (py "notes.txt")
  = Ok r
  /\ exists doc_type text chunks,
       detect_document_type Fixtures.demo_world Fixtures.demo_files
         (py "notes.txt") = Ok doc_type
       /\ doc_type <> EXCEL
       /\ r !! "file_type" = Some (PStr (DocumentType_value doc_type))
       /\ r !! "filename" = Some (PStr (basename (py "notes.txt")))
       /\ r !! "text" = Some (PStr text)
       /\ r !! "chunks" = Some (PStrList chunks)
       /\ r !! "total_chunks" = Some (PInt (len chunks))
       /\ AdvancedDocumentProcessor.split_text text = Ok chunks
       /\ Forall (fun chunk => well_sized 1000 chunk /\ trimmed chunk) chunks.
Proof.
  intros r.
  assert (H : process_document Fixtures.demo_world Fixtures.demo_files
                (py "notes.txt") = Ok r) by (vm_compute; reflexivity).
  split; [exact H|].
  exact (process_document_result Fixtures.demo_world Fixtures.demo_files
           (py "notes.txt") r H).
Defined.

Lemma bind_Raise {A B} (r : result A) (k : A -> result B) (e : exn) :
  bind r k = Raise e -> r = Raise e \/ exists a, r = Ok a /\ k a = Raise e.
Proof.
  destruct r as [a|e']; simpl; [eauto|].
  intros H. injection H as ->. left. reflexivity.
Qed.

Lemma try_except_raise_Raise {A} (body : result A) (h : exn -> exn) (e : exn) :
  try_except body (fun e => Raise (h e)) = Raise e ->
  exists cause, body = Raise cause /\ e = h cause.
Proof.
  destruct body as [a|e']; simpl; intros H; [discriminate|].
  injection H as <-. eauto.
Qed.

(** X11: [process_document] can end with five errors only: [ValueError]
    when the kind cannot be detected, [ValueError] for a spreadsheet, and
    [RuntimeError] from the PDF, image or text extractor. *)
Theorem process_document_errors (w : World) (fs : filesystem)
    (file_path : pystr) (e : exn) :
  process_document w fs file_path = Raise e -> document_error e.
Proof.
  unfold process_document, document_error. intros H.
  apply bind_Raise in H as [H | (doc_type & Hd & H)].
  - unfold detect_document_type in H.
    apply try_except_raise_Raise in H as (cause & _ & ->). left. auto.
  - destruct (processor_table doc_type) as [extractor|] eqn:Hp.
    + apply bind_Raise in H as [H | (r & _ & H)]; [|discriminate].
      right. right.
      destruct doc_type; simpl in Hp; inversion Hp; subst; clear Hp;
        apply try_except_raise_Raise in H as (cause & _ & ->); simpl; auto.
    + destruct doc_type; try discriminate. injection H as <-. auto.
Qed.

Lemma process_document_errors_witness :
  document_error
    (Exn ValueError (py "Failed to detect document type")
       (Some (Exn FileNotFoundError (py "No such file or directory") None))).
Proof.
  apply (process_document_errors Fixtures.demo_world Fixtures.demo_files
           (py "missing.txt")).
  vm_compute. reflexivity.
Defined.

Lemma detect_of_mime (w : World) (fs : filesystem) (file_path : pystr)
    (file : bytes) (mime : pystr) :
  fs !! file_path = Some file ->
  magic_mime w file = Ok mime ->
  detect_document_type w fs file_path = Ok (type_mapping mime).
Proof.
  intros Hf Hm. unfold detect_document_type, open_read.
  rewrite Hf. simpl. rewrite Hm. reflexivity.
Qed.

(** X12: a file whose MIME type is none of PDF, PNG, JPEG or spreadsheet is
    processed as plain text, whatever that type is. *)
Theorem unrecognised_type_is_read_as_text (w : World) (fs : filesystem)
    (file_path : pystr) (file : bytes) (mime : pystr) :
  fs !! file_path = Some file ->
  magic_mime w file = Ok mime ->
  mime ∉ [py "application/pdf"; py "image/png"; py "image/jpeg";
          py "application/vnd.openxmlformats-officedocument.spreadsheetml.sheet"] ->
  process_document w fs file_path
  = routed_to process_text TEXT w fs file_path.
Proof.
  intros Hf Hm Hnot.
  apply process_document_routes; [|reflexivity].
  rewrite (detect_of_mime w fs file_path file mime Hf Hm). f_equal.
  apply not_elem_of_cons in Hnot as [H1 Hnot].
  apply not_elem_of_cons in Hnot as [H2 Hnot].
  apply not_elem_of_cons in Hnot as [H3 Hnot].
  apply not_elem_of_cons in Hnot as [H4 _].
  unfold type_mapping.
  rewrite (decide_False _ _ H1), (decide_False _ _ H2), (decide_False _ _ H3).
  destruct (decide (mime = py "text/plain")); [reflexivity|].
  rewrite (decide_False _ _ H4). reflexivity.
Qed.

Lemma unrecognised_type_is_read_as_text_witness :
  process_document Fixtures.unknown_type_world Fixtures.demo_files
    (py "book.xlsx")
  = routed_to process_text TEXT Fixtures.unknown_type_world
      Fixtures.demo_files (py "book.xlsx").
Proof.
  apply (unrecognised_type_is_read_as_text Fixtures.unknown_type_world _
           (py "book.xlsx") [x50; x4b; x03; x04]
           (py "application/octet-stream")).
  - vm_compute. reflexivity.
  - reflexivity.
  - apply (bool_decide_unpack _). vm_compute. exact I.
Defined.

(** X13: table extraction is best effort: once the pages of a PDF can be
    read, [process_pdf] returns whatever [tabula] does; the text is the
    pages joined by newlines, the page count is the number of pages, and
    the tables are those [tabula] found that are not empty, or none when it
    raised. *)
Theorem process_pdf_best_effort (w : World) (fs : filesystem)
    (file_path : pystr) (file : bytes) (pages : list pystr) :
  fs !! file_path = Some file ->
  pdf_pages w file = Ok pages ->
  exists chunks,
    AdvancedDocumentProcessor.split_text (join [10%N] pages) = Ok chunks
    /\ process_pdf w fs file_path
       = Ok (<["total_chunks" := PInt (len chunks)]>
             (<["page_count" := PInt (len pages)]>
             (<["tables" := PTables (tables_of (tabula_read_pdf w file))]>
             (<["chunks" := PStrList chunks]>
             (<["text" := PStr (join [10%N] pages)]> ∅))))).
Proof.
  intros Hf Hp.
  destruct (split_text_returns (join [10%N] pages)) as (chunks & Hs & _).
  exists chunks. split; [exact Hs|].
  unfold process_pdf, open_read. rewrite Hf. simpl. rewrite Hp. simpl.
  rewrite Hs. simpl.
  destruct (tabula_read_pdf w file) as [tables|e]; reflexivity.
Qed.

Lemma process_pdf_best_effort_witness :
  exists chunks,
    AdvancedDocumentProcessor.split_text
      (join [10%N] [map Byte.to_N (list_byte_of_string "%PDF text")])
    = Ok chunks
    /\ process_pdf Fixtures.demo_world Fixtures.demo_files (py "paper.pdf")
       = Ok (<["total_chunks" := PInt (len chunks)]>
             (<["page_count" :=
                  PInt (len [map Byte.to_N (list_byte_of_string "%PDF text")])]>
             (<["tables" :=
                  PTables (tables_of
                             (tabula_read_pdf Fixtures.demo_world
                                (list_byte_of_string "%PDF text")))]>
             (<["chunks" := PStrList chunks]>
             (<["text" :=
                  PStr (join [10%N]
                          [map Byte.to_N (list_byte_of_string "%PDF text")])]>
                ∅))))).
Proof.
  apply (process_pdf_best_effort Fixtures.demo_world Fixtures.demo_files
           (py "paper.pdf") (list_byte_of_string "%PDF text")).
  - vm_compute. reflexivity.
  - reflexivity.
Defined.

(** X14: chunking never fails an extraction: each extractor returns
    exactly when its reader does: the text extractor when the file exists
    and decodes, the image extractor when the file opens as an image and
    the OCR does not raise, the PDF extractor when the pages can be
    read. *)
Theorem extractors_return_iff (w : World) (fs : filesystem)
    (file_path : pystr) :
  ((exists r, process_text w fs file_path = Ok r)
   <-> exists file text,
         fs !! file_path = Some file /\ decode_utf8 w file = Ok text)
  /\ ((exists r, process_image w fs file_path = Ok r)
      <-> exists file img ocr,
            fs !! file_path = Some file /\ image_open w file = Ok img
            /\ image_to_string w img = Ok ocr)
  /\ ((exists r, process_pdf w fs file_path = Ok r)
      <-> exists file pages,
            fs !! file_path = Some file /\ pdf_pages w file = Ok pages).
Proof.
  repeat split.
  - intros [r H]. unfold process_text in H.
    apply try_except_raise_Ok in H.
    apply bind_Ok in H as (file & Hf & H).
    apply bind_Ok in H as (text & Ht & _).
    apply open_read_Ok in Hf. eauto.
  - intros (file & text & Hf & Ht).
    destruct (split_text_returns text) as (chunks & Hs & _).
    unfold process_text, open_read. rewrite Hf. simpl. rewrite Ht. simpl.
    rewrite Hs. simpl. eauto.
  - intros [r H]. unfold process_image in H.
    apply try_except_raise_Ok in H.
    apply bind_Ok in H as (file & Hf & H).
    apply bind_Ok in H as (img & Hi & H).
    apply bind_Ok in H as (ocr & Ho & _).
    apply open_read_Ok in Hf. eauto 6.
  - intros (file & img & ocr & Hf & Hi & Ho).
    destruct (split_text_returns (or_empty ocr)) as (chunks & Hs & _).
    unfold process_image, open_read. rewrite Hf. simpl. rewrite Hi. simpl.
    rewrite Ho. simpl. rewrite Hs. simpl. eauto.
  - intros [r H]. unfold process_pdf in H.
    apply try_except_raise_Ok in H.
    apply bind_Ok in H as (file & Hf & H).
    apply bind_Ok in H as (pages & Hp & _).
    apply open_read_Ok in Hf. eauto.
  - intros (file & pages & Hf & Hp).
    destruct (split_text_returns (join [10%N] pages)) as (chunks & Hs & _).
    unfold process_pdf, open_read. rewrite Hf. simpl. rewrite Hp. simpl.
    rewrite Hs. simpl.
    destruct (tabula_read_pdf w file); simpl; eauto.
Qed.

(** ** Uploads: what one run of [process_document_async] does *)

Lemma store_embeddings_grows (w : World) (c c' : Chroma.collection) texts
    embeddings metadatas unique_id :
  store_embeddings w c texts embeddings metadatas unique_id = Ok c' ->
  (exists extra, c' = c ++ extra)
  /\ (NoDup (Chroma.ids_of c) -> NoDup (Chroma.ids_of c')).
Proof.
  intros H. unfold store_embeddings in H.
  apply try_except_raise_Ok in H. apply bind_Ok in H as (b & _ & Hadd).
  apply add_Ok in Hadd as (_ & He & Hd & Hm & Hnd & ->). split.
  - rewrite add_records_spec by (rewrite zip_records_ids; assumption). eauto.
  - apply add_records_NoDup.
Qed.

Lemma ingest_grows (w : World) (fs : filesystem) (c c' : Chroma.collection)
    (filename : pystr) (content : bytes) (temp_path : pystr) :
  ingest w fs c filename content temp_path = Ok c' ->
  (exists extra, c' = c ++ extra)
  /\ (NoDup (Chroma.ids_of c) -> NoDup (Chroma.ids_of c')).
Proof.
  unfold ingest. intros H. apply bind_Ok in H as (doc & _ & H).
  destruct (get_chunks doc); [discriminate|].
  apply bind_Ok in H as (ft & _ & H).
  eapply store_embeddings_grows, H.
Qed.

(** X15: however a run of [process_document_async] ends, the file system
    it leaves is the one it found without the file at the temporary path,
    the storage path joined with the file name: the upload is never left
    behind, and a file that was at that path before is gone too.  A file
    name that starts with a slash is itself that path, outside the storage
    directory. *)
Theorem upload_removes_temp_file (w : World) (st : State) (filename : pystr)
    (content : bytes) :
  st_files (process_document_async w st filename content).1
  = delete (path_join (document_storage_path w) filename) (st_files st)
  /\ (forall name,
        path_join (document_storage_path w) (slash :: name) = slash :: name).
Proof.
  split; [|reflexivity].
  unfold process_document_async, write_file, remove_if_exists.
  destruct (write_error w _); simpl; [reflexivity|].
  destruct (ingest _ _ _ _ _ _); simpl; apply delete_insert_eq.
Qed.

Lemma upload_grows (w : World) (st : State) (filename : pystr)
    (content : bytes) :
  let out := process_document_async w st filename content in
  (exists extra, st_collection out.1 = st_collection st ++ extra)
  /\ (NoDup (Chroma.ids_of (st_collection st)) ->
      NoDup (Chroma.ids_of (st_collection out.1)))
  /\ (forall e, out.2 = Raise e ->
        st_collection out.1 = st_collection st
        /\ exists cause,
             e = Exn (HTTPException 500)
                   (py "Document processing failed: " ++ exn_str cause) None).
Proof.
  unfold process_document_async.
  destruct (write_file w (st_files st) _ content) as [fs|e0]; simpl.
  - destruct (ingest w fs (st_collection st) filename content _)
      as [c'|e0] eqn:Hi; simpl.
    + destruct (ingest_grows _ _ _ _ _ _ _ Hi) as [Hext Hnd].
      repeat split; [exact Hext | exact Hnd | discriminate | discriminate].
    + repeat split; try (exists []; symmetry; apply app_nil_r); auto.
      injection H as <-. eauto.
  - repeat split; try (exists []; symmetry; apply app_nil_r); auto.
    injection H as <-. eauto.
Qed.




Lemma process_document_reads_one_file (w : World) (fs fs' : filesystem)
    (file_path : pystr) :
  fs !! file_path = fs' !! file_path ->
  process_document w fs file_path = process_document w fs' file_path.
Proof.
  intros H.
  assert (Ho : open_read fs file_path = open_read fs' file_path)
    by (unfold open_read; rewrite H; reflexivity).
  unfold process_document, detect_document_type. rewrite Ho.
  destruct (try_except _ _) as [doc_type|e]; simpl; [|reflexivity].
  destruct doc_type; simpl; try reflexivity;
    unfold process_pdf, process_image, process_text; rewrite Ho; reflexivity.
Qed.

(** What a run does once the upload is written and processed. *)
Lemma upload_after_processing (w : World) (st : State) (filename : pystr)
    (content : bytes) (outcome : result pydict) :
  let temp_path := path_join (document_storage_path w) filename in
  write_error w temp_path = None ->
  process_document w (<[temp_path := content]> (st_files st)) temp_path
  = outcome ->
  process_document_async w st filename content
  = match
      (processed_doc <- outcome ;;
       match get_chunks processed_doc with
       | [] =>
         Raise (Exn ValueError
                  (py "No text chunks generated from document") None)
       | t :: chunks =>
         file_type <- get_file_type processed_doc ;;
         store_embeddings w (st_collection st) (t :: chunks) None
           (Some (map (chunk_metadata filename file_type)
                    (seq 0 (length (t :: chunks)))))
           (Some (unique_id_of w filename content))
       end)
    with
    | Ok collection =>
      ({| st_files := delete temp_path (st_files st);
          st_collection := collection |}, Ok tt)
    | Raise e =>
      ({| st_files := delete temp_path (st_files st);
          st_collection := st_collection st |},
       Raise (processing_failed e))
    end.
Proof.
  intros temp_path Hw Hp. unfold process_document_async, write_file.
  fold temp_path. rewrite Hw. unfold ingest. rewrite Hp.
  unfold remove_if_exists. rewrite delete_insert_eq.
  destruct outcome as [doc|e]; simpl; [|reflexivity].
  destruct (get_chunks doc); reflexivity.
Qed.

(** X17: an upload detected as a spreadsheet always fails: the run ends
    with status 500, "Document processing failed: Unsupported document
    type: DocumentType.EXCEL", and stores nothing. *)
Theorem spreadsheet_upload_fails (w : World) (st : State) (filename : pystr)
    (content : bytes) :
  let temp_path := path_join (document_storage_path w) filename in
  write_error w temp_path = None ->
  magic_mime w content
  = Ok (py "application/vnd.openxmlformats-officedocument.spreadsheetml.sheet") ->
  process_document_async w st filename content
  = ({| st_files := delete temp_path (st_files st);
        st_collection := st_collection st |},
     Raise (Exn (HTTPException 500)
              (py "Document processing failed: Unsupported document type: DocumentType.EXCEL")
              None)).
Proof.
  intros temp_path Hw Hm.
  rewrite (upload_after_processing w st filename content
             (Raise (Exn ValueError
                       (py "Unsupported document type: DocumentType.EXCEL")
                       None)) Hw); [reflexivity|].
  unfold process_document.
  rewrite (detect_of_mime w _ _ content _ (lookup_insert_eq _ _ _) Hm).
  reflexivity.
Qed.

Lemma spreadsheet_upload_fails_witness :
  let st := {| st_files := ∅; st_collection := Fixtures.demo_collection |} in
  process_document_async Fixtures.demo_world st (py "book.xlsx")
    [x50; x4b; x03; x04]
  = ({| st_files := delete (py "data/documents/book.xlsx") ∅;
        st_collection := Fixtures.demo_collection |},
     Raise (Exn (HTTPException 500)
              (py "Document processing failed: Unsupported document type: DocumentType.EXCEL")
              None)).
Proof.
  apply (spreadsheet_upload_fails Fixtures.demo_world
           {| st_files := ∅; st_collection := Fixtures.demo_collection |}
           (py "book.xlsx") [x50; x4b; x03; x04]); reflexivity.
Defined.

(** X18: an upload read as text that is empty or all whitespace, and no
    longer than a chunk, always fails: the run ends with status 500,
    "Document processing failed: No text chunks generated from document",
    and stores nothing. *)
Theorem blank_text_upload_fails (w : World) (st : State) (filename : pystr)
    (content : bytes) (mime text : pystr) :
  let temp_path := path_join (document_storage_path w) filename in
  write_error w temp_path = None ->
  magic_mime w content = Ok mime ->
  type_mapping mime = TEXT ->
  decode_utf8 w content = Ok text ->
  len text <= 1000 ->
  strip text = [] ->
  process_document_async w st filename content
  = ({| st_files := delete temp_path (st_files st);
        st_collection := st_collection st |},
     Raise (Exn (HTTPException 500)
              (py "Document processing failed: No text chunks generated from document")
              None)).
Proof.
  intros temp_path Hw Hm Hk Hd Hlen Hblank.
  assert (Hs : AdvancedDocumentProcessor.split_text text = Ok []).
  { unfold AdvancedDocumentProcessor.split_text, TextSplitter.split_text.
    rewrite (_split_text_short AdvancedDocumentProcessor.text_splitter);
      try reflexivity; [|simpl; auto | exact Hlen].
    unfold stripped. rewrite Hblank. reflexivity. }
  rewrite (upload_after_processing w st filename content
             (Ok (<["file_type" := PStr (py "text")]>
                  (<["filename" := PStr (basename temp_path)]>
                  (<["total_chunks" := PInt 0]>
                  (<["chunks" := PStrList []]>
                  (<["text" := PStr text]> ∅)))))) Hw); [reflexivity|].
  unfold process_document.
  rewrite (detect_of_mime w _ _ content _ (lookup_insert_eq _ _ _) Hm), Hk.
  simpl. unfold process_text, open_read. rewrite lookup_insert_eq. simpl.
  rewrite Hd. simpl. rewrite Hs. reflexivity.
Qed.

Lemma blank_text_upload_fails_witness :
  let st := {| st_files := ∅; st_collection := Fixtures.demo_collection |} in
  process_document_async Fixtures.demo_world st (py "empty.txt") [x20; x0a]
  = ({| st_files := delete (py "data/documents/empty.txt") ∅;
        st_collection := Fixtures.demo_collection |},
     Raise (Exn (HTTPException 500)
              (py "Document processing failed: No text chunks generated from document")
              None)).
Proof.
  apply (blank_text_upload_fails Fixtures.demo_world
           {| st_files := ∅; st_collection := Fixtures.demo_collection |}
           (py "empty.txt") [x20; x0a] (py "text/plain") [32%N; 10%N]);
    first [reflexivity | (vm_compute; discriminate)].
Defined.

(** A batch that has been written once is skipped whole by any later
    collection that still starts with the one it left. *)
Lemma add_after (c c' extra : Chroma.collection) embeddings documents
    metadatas ids :
  Chroma.add c embeddings documents metadatas ids = Ok c' ->
  Chroma.add (c' ++ extra) embeddings documents metadatas ids
  = Ok (c' ++ extra).
Proof.
  intros H. apply add_Ok in H as (Hne & He & Hd & Hm & Hnd & ->).
  unfold Chroma.add.
  rewrite bool_decide_eq_false_2 by exact Hne.
  rewrite bool_decide_eq_true_2 by auto.
  rewrite bool_decide_eq_true_2 by exact Hnd. simpl. f_equal.
  apply add_records_present.
  eapply Forall_impl; [apply add_records_stored|].
  intros r Hr. unfold Chroma.ids_of. rewrite map_app.
  apply elem_of_app. left. exact Hr.
Qed.

Lemma store_embeddings_after (w : World) (c c' extra : Chroma.collection)
    texts embeddings metadatas unique_id :
  store_embeddings w c texts embeddings metadatas unique_id = Ok c' ->
  store_embeddings w (c' ++ extra) texts embeddings metadatas unique_id
  = Ok (c' ++ extra).
Proof.
  intros H. unfold store_embeddings in *.
  apply try_except_raise_Ok in H. apply bind_Ok in H as (b & Hb & Hadd).
  rewrite Hb. simpl. rewrite (add_after _ _ extra _ _ _ _ Hadd). reflexivity.
Qed.

(** X19: uploading is idempotent: once a run of [process_document_async]
    for a file name and content has succeeded, any later run for the same
    name and content succeeds and leaves the collection as it finds it,
    whatever has been added in between and whatever files there are. *)
Theorem second_upload_changes_nothing (w : World) (st st1 st2 : State)
    (filename : pystr) (content : bytes) (extra : Chroma.collection) :
  process_document_async w st filename content = (st1, Ok tt) ->
  st_collection st2 = st_collection st1 ++ extra ->
  process_document_async w st2 filename content
  = ({| st_files :=
          delete (path_join (document_storage_path w) filename) (st_files st2);
        st_collection := st_collection st2 |}, Ok tt).
Proof.
  intros H1 Hext.
  set (temp_path := path_join (document_storage_path w) filename) in *.
  unfold process_document_async in H1. fold temp_path in H1.
  unfold write_file in H1.
  destruct (write_error w temp_path) as [e|] eqn:Hw; [discriminate|].
  destruct (ingest w _ (st_collection st) filename content temp_path)
    as [c1|e] eqn:Hi; [|discriminate].
  injection H1 as <-. simpl in Hext.
  unfold ingest in Hi. apply bind_Ok in Hi as (doc & Hdoc & Hi).
  destruct (get_chunks doc) as [|t chunks] eqn:Hc; [discriminate|].
  apply bind_Ok in Hi as (file_type & Hft & Hst).
  rewrite (upload_after_processing w st2 filename content (Ok doc) Hw).
  - cbv beta iota delta [bind]. rewrite Hc, Hft. cbv beta iota.
    rewrite Hext.
    rewrite (store_embeddings_after _ _ _ extra _ _ _ _ Hst). reflexivity.
  - rewrite <- Hdoc. apply process_document_reads_one_file.
    fold temp_path. rewrite !lookup_insert_eq. reflexivity.
Qed.

Lemma second_upload_changes_nothing_witness :
  let st := {| st_files := ∅; st_collection := [] |} in
  let st1 := (process_document_async Fixtures.demo_world st (py "notes.txt")
                (list_byte_of_string "first note")).1 in
  let st2 := {| st_files := Fixtures.demo_files;
                st_collection := st_collection st1 ++ Fixtures.demo_collection |} in
  process_document_async Fixtures.demo_world st (py "notes.txt")
    (list_byte_of_string "first note") = (st1, Ok tt)
  /\ length (st_collection st1) = 1%nat
  /\ process_document_async Fixtures.demo_world st2 (py "notes.txt")
       (list_byte_of_string "first note")
     = ({| st_files := delete (py "data/documents/notes.txt") (st_files st2);
           st_collection := st_collection st2 |}, Ok tt).
Proof.
  intros st st1 st2.
  assert (H1 : process_document_async Fixtures.demo_world st (py "notes.txt")
                 (list_byte_of_string "first note") = (st1, Ok tt)).
  { unfold st1.
    destruct (process_document_async Fixtures.demo_world st (py "notes.txt")
                (list_byte_of_string "first note")) as [s r] eqn:Hrun.
    assert (Hr : returns r = true).
    { apply (f_equal (fun out => returns out.2)) in Hrun. simpl in Hrun.
      rewrite <- Hrun. vm_compute. reflexivity. }
    destruct r as [[]|e]; [reflexivity | discriminate]. }
  split; [exact H1|]. split; [vm_compute; reflexivity|].
  exact (second_upload_changes_nothing Fixtures.demo_world st st1 st2
           (py "notes.txt") (list_byte_of_string "first note")
           Fixtures.demo_collection H1 eq_refl).
Defined.

(** X20: a run of [process_document_async] that succeeds has added, in
    chunk order and skipping ids already present, one record per chunk of
    the document: each holds a chunk of 1 to 1000 characters, a vector of
    the model's dimension, the id made of the file name, the content hash
    and the chunk index, and the metadata file name, kind (pdf, image or
    text) and chunk index. *)
Theorem upload_records (w : World) (st st' : State) (filename : pystr)
    (content : bytes) :
  process_document_async w st filename content = (st', Ok tt) ->
  exists chunks kind,
    chunks <> []
    /\ Forall (fun chunk => well_sized 1000 chunk /\ trimmed chunk) chunks
    /\ kind ∈ [py "pdf"; py "image"; py "text"]
    /\ st_collection st'
       = st_collection st
         ++ List.filter (is_new (st_collection st))
              (imap (ingested_record w filename (SStr kind)
                       (Some (unique_id_of w filename content))) chunks)
    /\ forall i chunk,
         let r := ingested_record w filename (SStr kind)
                    (Some (unique_id_of w filename content)) i chunk in
         Chroma.rec_id r
         = filename ++ py "_" ++ sha256_hexdigest w content ++ py "_chunk_"
             ++ str_of_nat i
         /\ Chroma.rec_document r = chunk
         /\ length (Chroma.rec_embedding r) = embedding_dimension w
         /\ Chroma.rec_metadata r
            = <["chunk_index" := SInt (Z.of_nat i)]>
              (<["file_type" := SStr kind]>
              (<["filename" := SStr filename]> ∅)).
Proof.
  intros H.
  destruct (process_document_async_stores w st st' filename content H)
    as (fs & doc & file_type & _ & Hdoc & Hft & Hne & _ & Hcoll).
  destruct (process_document_shape w fs _ doc Hdoc)
    as (doc_type & text & chunks & _ & Hk & Hkind & _ & _ & Hc & _ & _ & Hfit).
  assert (Hchunks : get_chunks doc = chunks)
    by (unfold get_chunks; rewrite Hc; reflexivity).
  assert (Hfile : file_type = SStr (DocumentType_value doc_type)).
  { unfold get_file_type in Hft. rewrite Hkind in Hft. congruence. }
  rewrite Hchunks in *. subst file_type.
  exists chunks, (DocumentType_value doc_type). repeat split.
  - exact Hne.
  - exact Hfit.
  - destruct doc_type; simpl; [| | |congruence].
    + apply list_elem_of_here.
    + apply list_elem_of_further, list_elem_of_here.
    + do 2 apply list_elem_of_further. apply list_elem_of_here.
  - exact Hcoll.
  - apply chunk_id_of_upload.
  - apply sentence_embedding_length.
Qed.

Lemma upload_records_witness :
  let st := {| st_files := ∅; st_collection := [] |} in
  let st' := (process_document_async Fixtures.demo_world st (py "notes.txt")
                (list_byte_of_string "first note")).1 in
  process_document_async Fixtures.demo_world st (py "notes.txt")
    (list_byte_of_string "first note") = (st', Ok tt)
  /\ Chroma.ids_of (st_collection st') = [py "notes.txt_e3b0c442_chunk_0"]
  /\ exists chunks kind,
       chunks <> []
       /\ Forall (fun chunk => well_sized 1000 chunk /\ trimmed chunk) chunks
       /\ kind ∈ [py "pdf"; py "image"; py "text"]
       /\ st_collection st'
          = st_collection st
            ++ List.filter (is_new (st_collection st))
                 (imap (ingested_record Fixtures.demo_world (py "notes.txt")
                          (SStr kind)
                          (Some (unique_id_of Fixtures.demo_world
                                   (py "notes.txt")
                                   (list_byte_of_string "first note"))))
                    chunks)
       /\ forall i chunk,
            let r := ingested_record Fixtures.demo_world (py "notes.txt")
                       (SStr kind)
                       (Some (unique_id_of Fixtures.demo_world
                                (py "notes.txt")
                                (list_byte_of_string "first note")))
                       i chunk in
            Chroma.rec_id r
            = py "notes.txt" ++ py "_"
                ++ sha256_hexdigest Fixtures.demo_world
                     (list_byte_of_string "first note")
                ++ py "_chunk_" ++ str_of_nat i
            /\ Chroma.rec_document r = chunk
            /\ length (Chroma.rec_embedding r)
               = embedding_dimension Fixtures.demo_world
            /\ Chroma.rec_metadata r
               = <["chunk_index" := SInt (Z.of_nat i)]>
                 (<["file_type" := SStr kind]>
                 (<["filename" := SStr (py "notes.txt")]> ∅)).
Proof.
  intros st st'.
  assert (H1 : process_document_async Fixtures.demo_world st (py "notes.txt")
                 (list_byte_of_string "first note") = (st', Ok tt)).
  { unfold st'.
    destruct (process_document_async Fixtures.demo_world st (py "notes.txt")
                (list_byte_of_string "first note")) as [s r] eqn:Hrun.
    assert (Hr : returns r = true).
    { apply (f_equal (fun out => returns out.2)) in Hrun. simpl in Hrun.
      rewrite <- Hrun. vm_compute. reflexivity. }
    destruct r as [[]|e]; [reflexivity | discriminate]. }
  split; [exact H1|]. split; [vm_compute; reflexivity|].
  exact (upload_records Fixtures.demo_world st st' (py "notes.txt")
           (list_byte_of_string "first note") H1).
Defined.

(** ** Asking a question *)



(** ** Batches of uploads *)

Lemma run_background_tasks_app (w : World) (st st1 : State)
    (tasks1 tasks2 : list (pystr * bytes)) :
  run_background_tasks w st tasks1 = (st1, Ok tt) ->
  run_background_tasks w st (tasks1 ++ tasks2)
  = run_background_tasks w st1 tasks2.
Proof.
  revert st. induction tasks1 as [|[f c] tasks1 IH]; intros st H; simpl in *.
  - injection H as <-. reflexivity.
  - destruct (process_document_async w st f c) as [st' [[]|e]];
      [apply IH, H | discriminate].
Qed.

(** X22: whatever files a batch holds and however their processing ends,
    running the queue [batch_upload] builds only adds records to the
    collection and keeps one record per id; the response lists every file
    as queued, in order, before any of them is processed. *)
Theorem batch_only_adds (w : World) (st : State) (files : list UploadFile) :
  let out := run_background_tasks w st (batch_upload files).2 in
  (exists extra, st_collection out.1 = st_collection st ++ extra)
  /\ (NoDup (Chroma.ids_of (st_collection st)) ->
      NoDup (Chroma.ids_of (st_collection out.1)))
  /\ map (fun entry => (entry !! "filename", entry !! "status"))
       (batch_results (batch_upload files).1)
     = map (fun file => (Some (PStr (upload_filename file)),
                         Some (PStr (py "queued")))) files.
Proof.
  simpl. split; [|split].
  - revert st. induction files as [|file files IH]; intros st; simpl.
    + exists []. symmetry. apply app_nil_r.
    + destruct (upload_grows w st (upload_filename file) (upload_content file))
        as ([extra Hext] & _ & _).
      destruct (process_document_async w st _ _) as [st' [[]|e]]; simpl in *.
      * destruct (IH st') as [extra' Hext']. rewrite Hext', Hext.
        rewrite <- app_assoc. eauto.
      * eauto.
  - revert st. induction files as [|file files IH]; intros st Hnd; simpl.
    + exact Hnd.
    + destruct (upload_grows w st (upload_filename file) (upload_content file))
        as (_ & Hnd' & _).
      destruct (process_document_async w st _ _) as [st' [[]|e]]; simpl in *.
      * apply IH, Hnd', Hnd.
      * apply Hnd', Hnd.
  - rewrite map_map. apply map_ext. intros file. reflexivity.
Qed.

Lemma batch_only_adds_witness :
  NoDup (Chroma.ids_of
           (st_collection
              (run_background_tasks Fixtures.demo_world
                 {| st_files := ∅;
                    st_collection := Fixtures.demo_collection |}
                 (batch_upload
                    [{| upload_filename := py "notes.txt";
                        upload_content := list_byte_of_string "first note" |};
                     {| upload_filename := py "book.xlsx";
                        upload_content := [x50; x4b; x03; x04] |}]).2).1)).
Proof.
  apply (proj1 (proj2 (batch_only_adds Fixtures.demo_world
                         {| st_files := ∅;
                            st_collection := Fixtures.demo_collection |}
                         [{| upload_filename := py "notes.txt";
                             upload_content :=
                               list_byte_of_string "first note" |};
                          {| upload_filename := py "book.xlsx";
                             upload_content := [x50; x4b; x03; x04] |}]))).
  apply NoDup_singleton.
Defined.


(** X23: a failure stops the batch: when the files in front of one have
    been processed and that one fails, the run ends there with its error;
    the files queued behind it are never processed, and the failing file
    adds nothing. *)
Theorem batch_stops_at_first_failure (w : World) (st st1 st2 : State)
    (before after : list UploadFile) (bad : UploadFile) (e : exn) :
  run_background_tasks w st (batch_upload before).2 = (st1, Ok tt) ->
  process_document_async w st1 (upload_filename bad) (upload_content bad)
  = (st2, Raise e) ->
  run_background_tasks w st (batch_upload (before ++ bad :: after)).2
  = (st2, Raise e)
  /\ st_collection st2 = st_collection st1.
Proof.
  intros Hb Hbad. split.
  - simpl in *. rewrite map_app.
    rewrite (run_background_tasks_app w st st1 _ _ Hb). simpl.
    rewrite Hbad. reflexivity.
  - destruct (upload_grows w st1 (upload_filename bad) (upload_content bad))
      as (_ & _ & Hfail).
    rewrite Hbad in Hfail. simpl in Hfail.
    destruct (Hfail e eq_refl) as [Hc _]. exact Hc.
Qed.

Lemma batch_stops_at_first_failure_witness :
  let st := {| st_files := ∅; st_collection := [] |} in
  let sheet := {| upload_filename := py "book.xlsx";
                  upload_content := [x50; x4b; x03; x04] |} in
  let notes := {| upload_filename := py "notes.txt";
                  upload_content := list_byte_of_string "first note" |} in
  let st2 := {| st_files := delete (py "data/documents/book.xlsx") ∅;
                st_collection := [] |} in
  let e := Exn (HTTPException 500)
             (py "Document processing failed: Unsupported document type: DocumentType.EXCEL")
             None in
  run_background_tasks Fixtures.demo_world st
    (batch_upload ([] ++ sheet :: [notes])).2 = (st2, Raise e)
  /\ st_collection st2 = st_collection st.
Proof.
  intros st sheet notes st2 e.
  apply (batch_stops_at_first_failure Fixtures.demo_world st st st2 []
           [notes] sheet e).
  - reflexivity.
  - apply (upload_after_processing Fixtures.demo_world st (py "book.xlsx")
             [x50; x4b; x03; x04]
             (Raise (Exn ValueError
                       (py "Unsupported document type: DocumentType.EXCEL")
                       None))).
    + reflexivity.
    + vm_compute. reflexivity.
Defined.

(** ** Paths *)

Lemma plain_name_cons (c : N) (rest : pystr) :
  plain_name (c :: rest) ->
  (c =? slash)%N = false /\ existsb (N.eqb slash) rest = false.
Proof.
  unfold plain_name. cbn [existsb]. intros H.
  apply orb_false_iff in H as [Hc Hrest]. split; [|exact Hrest].
  rewrite N.eqb_sym. exact Hc.
Qed.

Lemma basename_plain (name : pystr) : plain_name name -> basename name = name.
Proof.
  intros H. destruct name as [|c rest]; [reflexivity|].
  apply plain_name_cons in H as [Hc Hrest].
  cbn [basename]. rewrite Hrest, Hc. reflexivity.
Qed.

Lemma basename_after_slash (dir name : pystr) :
  plain_name name -> basename (dir ++ slash :: name) = name.
Proof.
  unfold plain_name. intros H. induction dir as [|c dir IH].
  - cbn [app basename]. rewrite H, N.eqb_refl. reflexivity.
  - cbn [app basename]. rewrite existsb_app. cbn [existsb].
    rewrite N.eqb_refl, orb_true_r. exact IH.
Qed.

Lemma basename_of_joined (dir name : pystr) :
  plain_name name -> basename (path_join dir name) = name.
Proof.
  intros Hn. unfold path_join.
  destruct name as [|c rest].
  - destruct dir as [|d dir']; [reflexivity|].
    destruct (List.last (d :: dir') 0 =? slash)%N eqn:Hl.
    + apply N.eqb_eq in Hl.
      rewrite (app_removelast_last 0%N (l := d :: dir')) by discriminate.
      rewrite Hl. apply basename_after_slash. reflexivity.
    + apply basename_after_slash. reflexivity.
  - destruct (plain_name_cons _ _ Hn) as [Hc _].
    rewrite Hc. destruct dir as [|d dir']; [apply basename_plain, Hn|].
    destruct (List.last (d :: dir') 0 =? slash)%N eqn:Hl.
    + apply N.eqb_eq in Hl.
      rewrite (app_removelast_last 0%N (l := d :: dir')) by discriminate.
      rewrite Hl, <- app_assoc. apply basename_after_slash, Hn.
    + apply basename_after_slash, Hn.
Qed.

(** X24: a document processed from the path an upload is written to, the
    storage directory joined with a file name that has no slash in it, is
    stamped with that file name, whatever the directory is. *)
Theorem uploaded_document_keeps_its_name (w : World) (fs : filesystem)
    (dir name : pystr) (r : pydict) :
  plain_name name ->
  process_document w fs (path_join dir name) = Ok r ->
  r !! "filename" = Some (PStr name).
Proof.
  intros Hn Hr.
  destruct (process_document_shape w fs _ r Hr)
    as (doc_type & text & chunks & _ & _ & _ & Hf & _).
  rewrite Hf. do 2 f_equal. apply basename_of_joined, Hn.
Qed.

Lemma uploaded_document_keeps_its_name_witness :
  let fs : filesystem :=
    <[py "data/documents/notes.txt" := list_byte_of_string "first note"]> ∅ in
  let r := <["file_type" := PStr (py "text")]>
           (<["filename" := PStr (py "notes.txt")]>
           (<["total_chunks" := PInt 1]>
           (<["chunks" := PStrList [py "first note"]]>
           (<["text" := PStr (py "first note")]> (∅ : pydict))))) in
  process_document Fixtures.demo_world fs
    (path_join (py "data/documents") (py "notes.txt")) = Ok r
  /\ r !! "filename" = Some (PStr (py "notes.txt")).
Proof.
  intros fs r.
  assert (Hr : process_document Fixtures.demo_world fs
                 (path_join (py "data/documents") (py "notes.txt")) = Ok r)
    by (vm_compute; reflexivity).
  split; [exact Hr|].
  apply (uploaded_document_keeps_its_name Fixtures.demo_world fs
           (py "data/documents") (py "notes.txt") r);
    [reflexivity | exact Hr].
Defined.

(** ** The chat page *)

Lemma send_cases (post : App.poster) (s : App.session) (send_pressed : bool)
    (user_input : pystr) :
  (send_pressed = true /\ strip user_input <> []
   /\ App.send post s send_pressed user_input
      = App.increment_message_key
          (App.process_message_with_api post
             (App.append_message s
                {| App.role := py "user"; App.content := PStr user_input |})
             user_input))
  \/ ((send_pressed = false \/ strip user_input = [])
      /\ App.send post s send_pressed user_input = s).
Proof.
  unfold App.send. destruct send_pressed; simpl; [|right; auto].
  destruct user_input as [|c u]; simpl; [right; auto|].
  destruct (strip (c :: u)) eqn:Hs; simpl; [right; auto|].
  left. repeat split. discriminate.
Qed.

(** X25: whatever is typed and sent, in any order, the chat history stays
    a sequence of questions that are not blank, each followed by exactly
    one reply of the assistant, also when the backend fails or no key is
    set; a press of Send with an empty or blank input changes nothing, and
    the key of the input field never goes down. *)
Theorem chat_history_stays_paired (post : App.poster) (s : App.session)
    (events : list (bool * pystr)) :
  paired (App.messages s) ->
  let s' := foldl (fun s ev => App.send post s ev.1 ev.2) s events in
  paired (App.messages s')
  /\ App.message_key s <= App.message_key s'
  /\ App.api_key s' = App.api_key s
  /\ (forall pressed input,
        pressed = false \/ strip input = [] ->
        App.send post s' pressed input = s').
Proof.
  intros Hp. simpl. split; [|split; [|split]].
  - revert s Hp. induction events as [|[pressed input] events IH];
      intros s Hp; simpl; [exact Hp|].
    apply IH.
    destruct (send_cases post s pressed input) as [(_ & Hq & ->) | [_ ->]];
      [|exact Hp].
    simpl. rewrite <- app_assoc. apply paired_snoc; assumption.
  - revert s Hp. induction events as [|[pressed input] events IH];
      intros s Hp; simpl; [lia|].
    destruct (send_cases post s pressed input) as [(_ & Hq & Hs) | [_ Hs]].
    + etransitivity; [|apply IH].
      * rewrite Hs. simpl. lia.
      * rewrite Hs. simpl. rewrite <- app_assoc.
        apply paired_snoc; assumption.
    + rewrite Hs. apply IH, Hp.
  - clear Hp. revert s. induction events as [|[pressed input] events IH];
      intros s; simpl; [reflexivity|].
    rewrite IH.
    destruct (send_cases post s pressed input) as [(_ & _ & ->) | [_ ->]];
      reflexivity.
  - intros pressed input Hblank.
    destruct (send_cases post
                (foldl (fun s ev => App.send post s ev.1 ev.2) s events)
                pressed input) as [(Htrue & Hq & _) | [_ Hs]]; [|exact Hs].
    destruct Hblank; congruence.
Qed.

Lemma chat_history_stays_paired_witness :
  let post : App.poster := fun _ _ =>
    Raise (Exn (LibraryError "ConnectionError")
             (py "Connection refused") None) in
  let s := {| App.messages := []; App.message_key := 0;
              App.temp_input := None; App.api_key := Some (py "k") |} in
  let s' := foldl (fun s ev => App.send post s ev.1 ev.2) s
              [(true, py "hello"); (true, py "  "); (false, py "x")] in
  paired (App.messages s')
  /\ App.message_key s <= App.message_key s'
  /\ App.api_key s' = App.api_key s
  /\ (forall pressed input,
        pressed = false \/ strip input = [] ->
        App.send post s' pressed input = s').
Proof.
  intros post s.
  apply (chat_history_stays_paired post s
           [(true, py "hello"); (true, py "  "); (false, py "x")]).
  apply paired_nil.
Defined.

(** ** The splitter of the document processor *)

(** X26: the text splitter the document processor is built with returns
    on every text and never raises; each chunk it returns is non-empty, at
    most 1000 characters long, and has no white space at either end. *)
Theorem split_text_chunks_are_well_sized (text : pystr) :
  exists chunks,
    AdvancedDocumentProcessor.split_text text = Ok chunks
    /\ Forall (fun chunk => well_sized 1000 chunk /\ trimmed chunk) chunks.
Proof. exact (split_text_returns text). Qed.
